(** * PLECscore: the scoring-function adapter of [oddt.scoring.functions]

    A shallow embedding of [oddt/scoring/functions/PLECscore.py].  The class
    [PLECscore] is glue code over numpy, scikit-learn and the [scorer] base
    class: every method is a short imperative script that mutates [self],
    reads and writes files, prints to [stderr] and may raise.  The scripts are
    embedded as computations in a state-and-exception monad; the numerical
    routines of the libraries are fields of an environment record. *)

From Stdlib Require Import ZArith Ascii String DecimalString.
From stdpp Require Import base strings list gmap.

Local Open Scope string_scope.
Local Open Scope Z_scope.

(** ** Python values *)

(** A float.  A finite one is kept as the decimal literal that denotes it:
    [Dec m e] stands for [m * 10^e], so [1e-4] is [Dec 1 (-4)].  The
    infinities and NaN are values too; [json.load] reads them. *)
Inductive pyfloat :=
| Dec (mantissa exponent : Z)
| Inf (negative : bool)
| NaN.

#[local] Set Warnings "-register-all".
Inductive pyval :=
| VNone
| VBool (b : bool)
| VInt (z : Z)
| VFloat (f : pyfloat)
| VStr (s : string)
| VList (l : list pyval)
| VTuple (l : list pyval)
| VDict (items : list (string * pyval))
| VArray (data : pyval).            (* numpy.ndarray holding [data] *)
#[local] Set Warnings "register-all".

(** The classes the module tests values against. *)
Inductive pyclass :=
| cls_list | cls_tuple | cls_dict | cls_ndarray | cls_other.

Definition class_of (v : pyval) : pyclass :=
  match v with
  | VList _ => cls_list
  | VTuple _ => cls_tuple
  | VDict _ => cls_dict
  | VArray _ => cls_ndarray
  | _ => cls_other
  end.

Definition pyclass_eqb (c d : pyclass) : bool :=
  match c, d with
  | cls_list, cls_list | cls_tuple, cls_tuple | cls_dict, cls_dict
  | cls_ndarray, cls_ndarray | cls_other, cls_other => true
  | _, _ => false
  end.

(** ** Exceptions and results *)

Inductive exn :=
| ValueError (msg : string)
| TypeError (msg : string)
| AttributeError (name : string)
| UnboundLocalError (name : string)
| IndexError
| IOError (path : string)
| LibraryError (msg : string).      (* raised inside numpy / scikit-learn *)

Inductive result (A : Type) :=
| Ok (a : A)
| Raise (e : exn).
Arguments Ok {A} a.
Arguments Raise {A} e.

Definition is_ok {A} (r : result A) : bool :=
  match r with Ok _ => true | Raise _ => false end.

(** ** [isinstance]

    The second argument of [isinstance] must be a class or a tuple of
    classes.  [np.array] is numpy's array-building function, [np.ndarray] is
    the class; handing the function to [isinstance] raises [TypeError]. *)
Inductive classinfo :=
| a_class (c : pyclass)
| class_tuple (cs : list pyclass)
| a_function (name : string).

Definition np_array_fn : classinfo := a_function "numpy.array".

Definition isinstance (v : pyval) (ci : classinfo) : result bool :=
  match ci with
  | a_class c => Ok (pyclass_eqb (class_of v) c)
  | class_tuple cs => Ok (existsb (pyclass_eqb (class_of v)) cs)
  | a_function _ =>
      Raise (TypeError "isinstance() arg 2 must be a type or tuple of types")
  end.

(** [v[0]] on a sequence. *)
Definition item0 (l : list pyval) : result pyval :=
  match l with
  | x :: _ => Ok x
  | [] => Raise IndexError
  end.

(** ** String formatting and paths *)

(** [%i] applied to an integer. *)
Definition fmt_i (z : Z) : string := NilZero.string_of_int (Z.to_int z).

Definition startswith_sep (s : string) : bool :=
  match s with
  | String c _ => if decide (c = "/"%char) then true else false
  | EmptyString => false
  end.

Fixpoint endswith_sep (s : string) : bool :=
  match s with
  | EmptyString => false
  | String c EmptyString => if decide (c = "/"%char) then true else false
  | String _ rest => endswith_sep rest
  end.

(** [os.path.join(a, b)] (posix) on two strings. *)
Definition join (a b : string) : string :=
  if startswith_sep b then b
  else if (String.length a =? 0)%nat || endswith_sep a then a ++ b
  else a ++ "/" ++ b.

(** [os.path.join] as the module calls it.  The first component must be a
    string: [None] is rejected before anything is joined. *)
Definition path_join (a : option string) (b : string) : result string :=
  match a with
  | None => Raise (TypeError "expected str, bytes or os.PathLike object, not NoneType")
  | Some a => Ok (join a b)
  end.

(** The three file-name templates of the module. *)
Definition descs_name (dp dl size : Z) : string :=
  "plecscore_descs_p" ++ fmt_i dp ++ "_l" ++ fmt_i dl ++ "_s" ++ fmt_i size ++ ".csv".

Definition json_name (version : string) (dp dl size pdbbind_version : Z) : string :=
  "plecscore_" ++ version ++ "_p" ++ fmt_i dp ++ "_l" ++ fmt_i dl ++ "_s" ++ fmt_i size
    ++ "_pdbbind" ++ fmt_i pdbbind_version ++ ".json".

Definition pickle_name (version : string) (dp dl pdbbind_version size : Z) : string :=
  "PLEC" ++ version ++ "_p" ++ fmt_i dp ++ "_l" ++ fmt_i dl
    ++ "_pdbbind" ++ fmt_i pdbbind_version ++ "_s" ++ fmt_i size ++ ".pickle".

Definition title_name (version : string) (dp dl : Z) : string :=
  "PLEC" ++ version ++ "_p" ++ fmt_i dp ++ "_l" ++ fmt_i dl.

(** ** The objects of the module *)

(** The keyword arguments the three scikit-learn constructors receive. *)
Record SGD_params := {
  fit_intercept : bool;
  loss : string;
  penalty : string;
  sgd_random_state : Z;
  sgd_verbose : Z;
  n_iter : Z;
  alpha : pyfloat;
  epsilon : pyfloat }.

Record MLP_params := {
  hidden_layer_sizes : list Z;
  batch_size : Z;
  mlp_random_state : Z;
  mlp_verbose : Z;
  solver : string }.

Record RF_params := {
  n_estimators : Z;
  rf_n_jobs : Z;
  rf_verbose : Z;
  oob_score : bool;
  rf_random_state : Z }.

Inductive estimator :=
| SGDRegressor (p : SGD_params)
| MLPRegressor (p : MLP_params)
| RandomForestRegressor (p : RF_params).

(** A model object: [est] is the class of the estimator with the arguments
    it was constructed with, and stays; [attrs] are the instance attributes
    it has got since, by [fit] or by [setattr].  An attribute set under the
    name of a constructor argument is found in [attrs]; what the estimator
    makes of it is the library's business, which receives the whole
    object. *)
Record model_obj := {
  est : estimator;
  attrs : gmap string pyval }.

Definition is_SGDRegressor (m : model_obj) : bool :=
  match est m with SGDRegressor _ => true | _ => false end.
Definition is_MLPRegressor (m : model_obj) : bool :=
  match est m with MLPRegressor _ => true | _ => false end.
Definition is_RandomForestRegressor (m : model_obj) : bool :=
  match est m with RandomForestRegressor _ => true | _ => false end.

(** [partial(PLEC, depth_ligand=.., depth_protein=.., size=.., count_bits=..,
    sparse=.., ignore_hoh=..)]. *)
Record plec_partial := {
  pl_depth_ligand : Z;
  pl_depth_protein : Z;
  pl_size : Z;
  pl_count_bits : bool;
  pl_sparse : bool;
  pl_ignore_hoh : bool }.

(** [universal_descriptor(func, protein=.., shape=.., sparse=..)]. *)
Record universal_descriptor := {
  ud_func : plec_partial;
  ud_protein : option string;
  ud_shape : Z;
  ud_sparse : bool }.

(** A descriptor matrix, sparse (CSR) or dense. *)
Record descs := { is_sparse : bool; rows : pyval }.

Definition toarray (d : descs) : descs := {| is_sparse := false; rows := rows d |}.

(** The four fields [_load_pdbbind_desc] leaves on the scorer. *)
Record datasets := {
  ds_train_descs : descs;
  ds_train_target : pyval;
  ds_test_descs : descs;
  ds_test_target : pyval }.

(** An instance of [PLECscore].  The first six fields are the ones
    [__init__] assigns from its arguments; the next three are assigned by
    [scorer.__init__]; the last four exist only after the descriptors have
    been loaded. *)
Record PLECscore := {
  protein : option string;
  n_jobs : Z;
  version : string;
  depth_protein : Z;
  depth_ligand : Z;
  size : Z;
  model : model_obj;
  descriptor_generator : universal_descriptor;
  score_title : string;
  train_descs : option descs;
  train_target : option pyval;
  test_descs : option descs;
  test_target : option pyval }.

(** The six fields set from the constructor's arguments. *)
Definition config (a : PLECscore) : option string * Z * string * Z * Z * Z :=
  (protein a, n_jobs a, version a, depth_protein a, depth_ligand a, size a).

Definition set_model (m : model_obj) (a : PLECscore) : PLECscore :=
  {| protein := protein a; n_jobs := n_jobs a; version := version a;
     depth_protein := depth_protein a; depth_ligand := depth_ligand a;
     size := size a; model := m;
     descriptor_generator := descriptor_generator a;
     score_title := score_title a;
     train_descs := train_descs a; train_target := train_target a;
     test_descs := test_descs a; test_target := test_target a |}.

Definition set_datasets (d : datasets) (a : PLECscore) : PLECscore :=
  {| protein := protein a; n_jobs := n_jobs a; version := version a;
     depth_protein := depth_protein a; depth_ligand := depth_ligand a;
     size := size a; model := model a;
     descriptor_generator := descriptor_generator a;
     score_title := score_title a;
     train_descs := Some (ds_train_descs d);
     train_target := Some (ds_train_target d);
     test_descs := Some (ds_test_descs d);
     test_target := Some (ds_test_target d) |}.

(** [set_protein(p)] of the base class: the protein of the scorer and of
    its descriptor generator. *)
Definition set_protein (p : option string) (a : PLECscore) : PLECscore :=
  {| protein := p; n_jobs := n_jobs a; version := version a;
     depth_protein := depth_protein a; depth_ligand := depth_ligand a;
     size := size a; model := model a;
     descriptor_generator :=
       {| ud_func := ud_func (descriptor_generator a);
          ud_protein := p;
          ud_shape := ud_shape (descriptor_generator a);
          ud_sparse := ud_sparse (descriptor_generator a) |};
     score_title := score_title a;
     train_descs := train_descs a; train_target := train_target a;
     test_descs := test_descs a; test_target := test_target a |}.

(** ** The world outside the object *)

(** What a file holds. *)
Inductive file :=
| FJson (doc : pyval)               (* a JSON document, as [json.load] reads it *)
| FCsv (table : pyval)              (* a descriptor table *)
| FPickle (snapshot : PLECscore)    (* a pickled scorer *)
| FRaw (text : string).             (* anything else *)

(** Calls that leave the module, in the order they are made. *)
Inductive call :=
| call_partial_PLEC
| call_universal_descriptor
| call_SGDRegressor
| call_MLPRegressor
| call_RandomForestRegressor
| call_scorer_init (title : string)
| call_gen_pdbbind_desc (desc_path : string)
| call_load_pdbbind_desc (desc_path : string) (pdbbind_version : Z)
| call_fit (e : estimator) (X : descs) (y : pyval)
| call_predict (X : descs)
| call_save (filename : string)
| call_scorer_load (filename : option string)
| call_isfile (path : string)
| call_json_load (path : string)
| call_json_dump (path : string).

Record world := {
  files : gmap string file;
  stderr : list string;             (* most recent line first *)
  calls : list call }.              (* most recent call first *)

(** A method runs on an object in a world. *)
Record state := { self : PLECscore; outside : world }.

(** ** What the module imports

    The numerical routines of numpy and scikit-learn, the descriptor
    computation of the [scorer] base class and a few facts of the
    installation are not part of this file of the repository.  They are the
    fields of an environment; every definition below takes one. *)
Record Env := {
  (** [dirname(__file__)] *)
  module_dir : string;
  (** class-level attributes [PLECscore] inherits from [scorer]; the class
      body of [PLECscore] itself binds only its five methods *)
  scorer_class_attrs : list (string * pyval);
  (** which paths can be opened for writing *)
  writable_path : string → bool;
  (** [str(v)], as the [%s] conversion uses it *)
  py_str : pyval → string;
  (** [int(f)] of a float, as the [%i] conversion uses it; it raises on an
      infinity and on NaN *)
  float_to_int : pyfloat → result Z;
  (** [np.array(x)] and [a.tolist()] *)
  np_array : pyval → result pyval;
  np_tolist : pyval → result pyval;
  (** [setattr(obj, name, v)] on an estimator of the given class whose
      instance attributes are the given ones: whether it raises, and the
      instance attributes afterwards.  Python decides this, not the module:
      [__class__] and [__dict__] are not ordinary names, and a class may
      define descriptors.  The class itself cannot change here: no value
      read from JSON is a class. *)
  py_setattr : estimator → gmap string pyval → string → pyval
               → result unit * gmap string pyval;
  (** [model.fit(X, y)]: whether it raises, and the instance attributes of
      the model afterwards *)
  sk_fit : model_obj → descs → pyval → result unit * gmap string pyval;
  (** [model.predict(X)] *)
  sk_predict : model_obj → descs → result pyval;
  (** [r2_score(target, pred)], [pearsonr(target, pred)[0]], [rmse(target, pred)] *)
  r2_score : pyval → pyval → result pyfloat;
  pearsonr0 : pyval → pyval → result pyfloat;
  rmse : pyval → pyval → result pyfloat;
  (** the [%.4f] conversion *)
  fmt_4f : pyfloat → string;
  (** the descriptor table [_gen_pdbbind_desc] computes from a benchmark
      directory and its versions *)
  pdbbind_table : universal_descriptor → string → list Z → result pyval;
  (** the split [_load_pdbbind_desc] makes of a descriptor table into the
      general+refined training part and the core test part *)
  pdbbind_split : pyval → Z → result datasets }.

(** ** The monad: state that survives an exception *)

Definition M (S A : Type) : Type := S → result A * S.

Definition ret {S A} (a : A) : M S A := λ s, (Ok a, s).

Definition raise {S A} (e : exn) : M S A := λ s, (Raise e, s).

Definition bind {S A B} (m : M S A) (k : A → M S B) : M S B :=
  λ s, match m s with
       | (Ok a, s') => k a s'
       | (Raise e, s') => (Raise e, s')
       end.

Definition lift {S A} (r : result A) : M S A := λ s, (r, s).

Definition gets {S A} (f : S → A) : M S A := λ s, (Ok (f s), s).

Definition modify {S} (f : S → S) : M S unit := λ s, (Ok tt, f s).

Notation "x <- m ;; k" := (bind m (λ x, k))
  (at level 100, m at next level, right associativity).
Notation "m ;;; k" := (bind m (λ _, k))
  (at level 100, right associativity).

(** [for x in xs: body(x)] *)
Fixpoint for_each {S A} (xs : list A) (body : A → M S unit) : M S unit :=
  match xs with
  | [] => ret tt
  | x :: rest => body x ;;; for_each rest body
  end.

(** A loop that threads an accumulator, as [out] is threaded in [gen_json]. *)
Fixpoint fold_each {S A B} (xs : list A) (acc : B) (body : B → A → M S B) : M S B :=
  match xs with
  | [] => ret acc
  | x :: rest => acc' <- body acc x ;; fold_each rest acc' body
  end.

(** Running a world computation from inside a method, and a method on a
    given object from outside. *)
Definition in_world {A} (m : M world A) : M state A :=
  λ s, let '(r, w) := m (outside s) in (r, {| self := self s; outside := w |}).

Definition on_object {A} (a : PLECscore) (m : M state A) : M world A :=
  λ w, let '(r, s) := m {| self := a; outside := w |} in (r, outside s).

(** ** Primitive effects *)

Definition set_files (f : gmap string file) (w : world) : world :=
  {| files := f; stderr := stderr w; calls := calls w |}.

Definition log (c : call) : M world unit :=
  modify (λ w, {| files := files w; stderr := stderr w; calls := c :: calls w |}).

(** [print(..., file=sys.stderr)] *)
Definition print_err (line : string) : M world unit :=
  modify (λ w, {| files := files w; stderr := line :: stderr w; calls := calls w |}).

(** [os.path.isfile(path)] *)
Definition isfile (path : string) : M world bool :=
  log (call_isfile path) ;;;
  gets (λ w, bool_decide (is_Some (files w !! path))).

Definition get_self : M state PLECscore := gets self.

Definition update_self (f : PLECscore → PLECscore) : M state unit :=
  modify (λ s, {| self := f (self s); outside := outside s |}).

(** [getattr(self.model, name)] *)
Definition getattr_model (name : string) : M state pyval :=
  a <- get_self ;;
  match attrs (model a) !! name with
  | Some v => ret v
  | None => raise (AttributeError name)
  end.

(** The model of [self] with other instance attributes. *)
Definition set_attrs (new : gmap string pyval) (a : PLECscore) : PLECscore :=
  set_model {| est := est (model a); attrs := new |} a.

(** Reading one of the four dataset fields of [self]. *)
Definition getattr_opt {A} (name : string) (f : PLECscore → option A) : M state A :=
  a <- get_self ;;
  match f a with
  | Some v => ret v
  | None => raise (AttributeError name)
  end.

(** ** The class *)

Definition dquote : string := String (ascii_of_nat 34) EmptyString.
Definition tab : string := String (ascii_of_nat 9) EmptyString.

(** The message of the [ValueError] of [__init__]. *)
Definition unsupported_version (version : string) : string :=
  "The version " ++ dquote ++ version ++ dquote ++ " is not supported by PLECscore".

(** The two diagnostic lines of [train]. *)
Definition loading_line (version : string) (dp dl pv : Z) : string :=
  "Loading pretrained PLECscore " ++ version ++ " with depths P" ++ fmt_i dp
    ++ " L" ++ fmt_i dl ++ " on PDBBind v" ++ fmt_i pv.

Definition training_line (version : string) (dp dl pv : Z) : string :=
  "Training PLECscore " ++ version ++ " with depths P" ++ fmt_i dp
    ++ " L" ++ fmt_i dl ++ " on PDBBind v" ++ fmt_i pv.

(** [out[name] = v] on a dict kept in insertion order. *)
Fixpoint dict_set (name : string) (v : pyval) (d : list (string * pyval))
  : list (string * pyval) :=
  match d with
  | [] => [(name, v)]
  | (k, x) :: rest =>
      if String.eqb k name then (k, v) :: rest else (k, x) :: dict_set name v rest
  end.

Fixpoint dict_get (name : string) (d : list (string * pyval)) : option pyval :=
  match d with
  | [] => None
  | (k, x) :: rest => if String.eqb k name then Some x else dict_get name rest
  end.

(** What [json.dump] writes for a value, as [json.load] reads it back:
    tuples come back as lists, arrays are not serializable. *)
Fixpoint to_json (v : pyval) : option pyval :=
  match v with
  | VArray _ => None
  | VList l | VTuple l =>
      VList <$> (fix go (l : list pyval) : option (list pyval) :=
                   match l with
                   | [] => Some []
                   | x :: rest =>
                       match to_json x, go rest with
                       | Some x', Some rest' => Some (x' :: rest')
                       | _, _ => None
                       end
                   end) l
  | VDict items =>
      VDict <$> (fix go (l : list (string * pyval)) : option (list (string * pyval)) :=
                   match l with
                   | [] => Some []
                   | (k, x) :: rest =>
                       match to_json x, go rest with
                       | Some x', Some rest' => Some ((k, x') :: rest')
                       | _, _ => None
                       end
                   end) items
  | _ => Some v
  end.

Section Methods.

Variable E : Env.

(** [PLECscore.name], looked up on the class: the methods apart, the class
    has the attributes of its base class and no others. *)
Definition class_getattr {S} (name : string) : M S pyval :=
  match dict_get name (scorer_class_attrs E) with
  | Some v => ret v
  | None => raise (AttributeError name)
  end.

(** [%s] applied to a value. *)
Definition fmt_s_val (v : pyval) : string :=
  match v with
  | VStr s => s
  | _ => py_str E v
  end.

(** [%i] applied to a value. *)
Definition fmt_i_val (v : pyval) : result string :=
  match v with
  | VInt z => Ok (fmt_i z)
  | VBool b => Ok (fmt_i (if b then 1 else 0))
  | VFloat f =>
      match float_to_int E f with
      | Ok z => Ok (fmt_i z)
      | Raise e => Raise e
      end
  | _ => Raise (TypeError "%i format: a number is required")
  end.

(** [np.array(x)] for every [x] of a list, and [x.tolist()] likewise; the
    first one that raises ends the comprehension. *)
Fixpoint np_array_all (l : list pyval) : result (list pyval) :=
  match l with
  | [] => Ok []
  | x :: rest =>
      match np_array E x with
      | Raise e => Raise e
      | Ok x' =>
          match np_array_all rest with
          | Raise e => Raise e
          | Ok rest' => Ok (x' :: rest')
          end
      end
  end.

Fixpoint tolist_all (l : list pyval) : result (list pyval) :=
  match l with
  | [] => Ok []
  | x :: rest =>
      match np_tolist E x with
      | Raise e => Raise e
      | Ok x' =>
          match tolist_all rest with
          | Raise e => Raise e
          | Ok rest' => Ok (x' :: rest')
          end
      end
  end.

(** [setattr(self.model, name, v)] *)
Definition setattr_model (name : string) (v : pyval) : M state unit :=
  a <- get_self ;;
  let '(r, new) := py_setattr E (est (model a)) (attrs (model a)) name v in
  update_self (set_attrs new) ;;;
  lift r.

(** *** Methods inherited from [scorer] *)

(** Modelled from the spec: [scorer.__init__] is not in this file of the
    repository; it wraps feature extractor and model in the generic scorer
    base under the given title. *)
Definition scorer_init (protein : option string) (n_jobs : Z) (version : string)
    (dp dl sz : Z) (m : estimator) (d : universal_descriptor) (title : string)
  : M world PLECscore :=
  log (call_scorer_init title) ;;;
  ret {| protein := protein; n_jobs := n_jobs; version := version;
         depth_protein := dp; depth_ligand := dl; size := sz;
         model := {| est := m; attrs := ∅ |};
         descriptor_generator := d; score_title := title;
         train_descs := None; train_target := None;
         test_descs := None; test_target := None |}.

(** Modelled from the spec: [scorer._gen_pdbbind_desc] is not in this file of
    the repository; it computes the descriptors of the benchmark and writes
    them as a CSV table at [desc_path]. *)
Definition gen_pdbbind_desc (pdbbind_dir : string) (pdbbind_versions : list Z)
    (desc_path : string) : M state unit :=
  in_world (log (call_gen_pdbbind_desc desc_path)) ;;;
  a <- get_self ;;
  table <- lift (pdbbind_table E (descriptor_generator a) pdbbind_dir pdbbind_versions) ;;
  in_world (modify (λ w, set_files (<[desc_path := FCsv table]> (files w)) w)).

(** Modelled from the spec: [scorer._load_pdbbind_desc] is not in this file
    of the repository; it reads the CSV table at [desc_path], a missing file
    being a file-not-found error, and leaves the training and test parts on
    [self]. *)
Definition read_pdbbind_desc (desc_path : string) (pdbbind_version : Z) : M state unit :=
  f <- in_world (gets (λ w, files w !! desc_path)) ;;
  match f with
  | Some (FCsv table) =>
      d <- lift (pdbbind_split E table pdbbind_version) ;;
      update_self (set_datasets d)
  | Some _ => raise (ValueError "not a descriptor table")
  | None => raise (IOError desc_path)
  end.

(** [self._load_pdbbind_desc(desc_path, train_set=..., pdbbind_version=...)]:
    the call, then the reading. *)
Definition load_pdbbind_desc (desc_path : string) (pdbbind_version : Z) : M state unit :=
  in_world (log (call_load_pdbbind_desc desc_path pdbbind_version)) ;;;
  read_pdbbind_desc desc_path pdbbind_version.

(** Modelled from the spec: [scorer.save] is not in this file of the
    repository; it writes the whole scorer as an opaque artifact at
    [filename] and returns that path.  The inherited method first takes the
    protein off the scorer and off its descriptor generator
    ([self.set_protein(None)]), so that it is not pickled, and it raises when
    the file cannot be opened. *)
Definition save (filename : string) : M state string :=
  in_world (log (call_save filename)) ;;;
  update_self (set_protein None) ;;;
  a <- get_self ;;
  if writable_path E filename then
    in_world (modify (λ w, set_files (<[filename := FPickle a]> (files w)) w)) ;;;
    ret filename
  else raise (IOError filename).

(** Modelled from the spec: [scorer.load] is not in this file of the
    repository; it deserializes the artifact at the given path. *)
Definition scorer_load (filename : option string) : M world PLECscore :=
  log (call_scorer_load filename) ;;;
  match filename with
  | None => raise (TypeError "expected a file name, not NoneType")
  | Some p =>
      f <- gets (λ w, files w !! p) ;;
      match f with
      | Some (FPickle a) => ret a
      | Some _ => raise (ValueError "not a pickled scorer")
      | None => raise (IOError p)
      end
  end.

(** *** Calls into scikit-learn and [json] *)

(** [self.model.fit(X, y)] *)
Definition fit (X : descs) (y : pyval) : M state unit :=
  a <- get_self ;;
  in_world (log (call_fit (est (model a)) X y)) ;;;
  let '(r, new) := sk_fit E (model a) X y in
  update_self (set_attrs new) ;;;
  lift r.

(** [self.model.predict(X)] *)
Definition predict (X : descs) : M state pyval :=
  a <- get_self ;;
  in_world (log (call_predict X)) ;;;
  lift (sk_predict E (model a) X).

(** [with open(path) as f: json.load(f)] *)
Definition json_load (path : string) : M world pyval :=
  log (call_json_load path) ;;;
  f <- gets (λ w, files w !! path) ;;
  match f with
  | Some (FJson doc) => ret doc
  | Some _ => raise (ValueError "No JSON object could be decoded")
  | None => raise (IOError path)
  end.

(** [with open(path, 'w') as f: json.dump(out, f, indent=2)]: opening
    raises if the file cannot be opened and truncates it otherwise, then the
    document is written. *)
Definition json_dump (path : string) (out : pyval) : M world unit :=
  log (call_json_dump path) ;;;
  if writable_path E path then
    modify (λ w, set_files (<[path := FRaw EmptyString]> (files w)) w) ;;;
    match to_json out with
    | Some doc => modify (λ w, set_files (<[path := FJson doc]> (files w)) w)
    | None => raise (TypeError "is not JSON serializable")
    end
  else raise (IOError path).

(** [json_data.items()] *)
Definition dict_items {S} (v : pyval) : M S (list (string * pyval)) :=
  match v with
  | VDict items => ret items
  | _ => raise (AttributeError "items")
  end.

(** *** [__init__] *)

(** The model of each variant, with the keyword arguments of the source. *)
Definition linear_model : estimator :=
  SGDRegressor {| fit_intercept := false;
                  loss := "huber";
                  penalty := "elasticnet";
                  sgd_random_state := 0;
                  sgd_verbose := 0;
                  n_iter := 100;
                  alpha := Dec 1 (-4);
                  epsilon := Dec 1 (-1) |}.

Definition nn_model : estimator :=
  MLPRegressor {| hidden_layer_sizes := [200; 200; 200];
                  batch_size := 10;
                  mlp_random_state := 0;
                  mlp_verbose := 0;
                  solver := "lbfgs" |}.

Definition rf_model : estimator :=
  RandomForestRegressor {| n_estimators := 100;
                           rf_n_jobs := -1;
                           rf_verbose := 0;
                           oob_score := true;
                           rf_random_state := 0 |}.

(** The [if]/[elif] chain on [version]. *)
Definition make_model (version : string) : M world estimator :=
  if String.eqb version "linear" then
    log call_SGDRegressor ;;; ret linear_model
  else if String.eqb version "nn" then
    log call_MLPRegressor ;;; ret nn_model
  else if String.eqb version "rf" then
    log call_RandomForestRegressor ;;; ret rf_model
  else
    raise (ValueError (unsupported_version version)).

(** [PLECscore(protein, n_jobs, version, depth_protein, depth_ligand, size)].
    The six assignments to [self] come first in the source; the object they
    are made on is reachable only if [__init__] returns, so they appear here
    as the fields [scorer_init] receives. *)
Definition init (protein : option string) (n_jobs : Z) (version : string)
    (depth_protein depth_ligand size : Z) : M world PLECscore :=
  log call_partial_PLEC ;;;
  let plec_func := {| pl_depth_ligand := depth_ligand;
                      pl_depth_protein := depth_protein;
                      pl_size := size;
                      pl_count_bits := true;
                      pl_sparse := true;
                      pl_ignore_hoh := true |} in
  log call_universal_descriptor ;;;
  let descriptors := {| ud_func := plec_func; ud_protein := protein;
                        ud_shape := size; ud_sparse := true |} in
  m <- make_model version ;;
  scorer_init protein n_jobs version depth_protein depth_ligand size
    m descriptors (title_name version depth_protein depth_ligand).

(** *** [gen_training_data] *)

(** [gen_training_data(pdbbind_dir, pdbbind_versions, home_dir)]; here the
    test is [home_dir is None]. *)
Definition gen_training_data (pdbbind_dir : string) (pdbbind_versions : list Z)
    (home_dir : option string) : M state unit :=
  home_dir <- match home_dir with
              | None => lift (path_join (Some (module_dir E)) "PLECscore")
              | Some h => ret h
              end ;;
  a <- get_self ;;
  filename <- lift (path_join (Some home_dir)
                      (descs_name (depth_protein a) (depth_ligand a) (size a))) ;;
  gen_pdbbind_desc pdbbind_dir pdbbind_versions filename.

(** *** [train] *)

(** The conversion of one value of the JSON document (lines 137-141). *)
Definition from_json_value (v : pyval) : result pyval :=
  match v with
  | VList l =>
      match item0 l with
      | Raise e => Raise e
      | Ok x0 =>
          if pyclass_eqb (class_of x0) cls_list then
            match np_array_all l with
            | Raise e => Raise e
            | Ok l' => Ok (VList l')
            end
          else np_array E v
      end
  | _ => Ok v
  end.

(** The loop of lines 136-142. *)
Definition set_from_json (items : list (string * pyval)) : M state unit :=
  for_each items (λ kv, v <- lift (from_json_value kv.2) ;; setattr_model kv.1 v).

(** The branch that loads the published weights. *)
Definition train_from_json (json_path : string) (pdbbind_version : Z)
  : M state (option string) :=
  a <- get_self ;;
  in_world (print_err (loading_line (version a) (depth_protein a)
                         (depth_ligand a) pdbbind_version)) ;;;
  json_data <- in_world (json_load json_path) ;;
  items <- dict_items json_data ;;
  set_from_json items ;;;
  ret None.

(** One line of the evaluation report. *)
Definition report (set : string * pyval * pyval) : M state unit :=
  let '(name, pred, target) := set in
  r2 <- lift (r2_score E target pred) ;;
  rp <- lift (pearsonr0 E target pred) ;;
  rm <- lift (rmse E target pred) ;;
  in_world (print_err ((name ++ " set:") ++ tab ++ ("R2_score: " ++ fmt_4f E r2) ++ tab
                         ++ ("Rp: " ++ fmt_4f E rp) ++ tab ++ ("RMSE: " ++ fmt_4f E rm))).

(** Lines 172-177: the scorer is saved under the given name or under the
    one built from the configuration, and the path is returned. *)
Definition save_result (sf_pickle : option string) (pdbbind_version : Z)
  : M state (option string) :=
  a <- get_self ;;
  match sf_pickle with
  | None => p <- save (pickle_name (version a) (depth_protein a) (depth_ligand a)
                         pdbbind_version (size a)) ;;
            ret (Some p)
  | Some f => p <- save f ;; ret (Some p)
  end.

(** Lines 149-177: fit, evaluate, save. *)
Definition fit_and_save (sf_pickle : option string) (pdbbind_version : Z)
  : M state (option string) :=
  a <- get_self ;;
  in_world (print_err (training_line (version a) (depth_protein a)
                         (depth_ligand a) pdbbind_version)) ;;;
  a <- get_self ;;
  (if String.eqb (version a) "rf" then
     X <- getattr_opt "train_descs" train_descs ;;
     y <- getattr_opt "train_target" train_target ;;
     fit (toarray X) y
   else
     X <- getattr_opt "train_descs" train_descs ;;
     y <- getattr_opt "train_target" train_target ;;
     fit X y) ;;;
  Xtest <- getattr_opt "test_descs" test_descs ;;
  test_pred <- predict Xtest ;;
  ytest <- getattr_opt "test_target" test_target ;;
  Xtrain <- getattr_opt "train_descs" train_descs ;;
  train_pred <- predict Xtrain ;;
  ytrain <- getattr_opt "train_target" train_target ;;
  let sets := [("Test", test_pred, ytest); ("Train", train_pred, ytrain)] in
  a <- get_self ;;
  sets <- (if String.eqb (version a) "rf" then
             oob <- getattr_model "oob_prediction_" ;;
             ytrain' <- getattr_opt "train_target" train_target ;;
             ret (sets ++ [("OOB", oob, ytrain')])%list
           else ret sets) ;;
  for_each sets report ;;;
  save_result sf_pickle pdbbind_version.

(** The branch that fits the model on the descriptors. *)
Definition train_from_descs (desc_path : string) (sf_pickle : option string)
    (pdbbind_version : Z) : M state (option string) :=
  load_pdbbind_desc desc_path pdbbind_version ;;;
  fit_and_save sf_pickle pdbbind_version.

(** The test of line 127: [and] stops at its first false operand. *)
Definition use_json (json_path : string) (ignore_json : bool) : M state bool :=
  a <- get_self ;;
  if String.eqb (version a) "linear" then
    present <- in_world (isfile json_path) ;;
    if present then ret (negb ignore_json) else ret false
  else ret false.

(** [train(home_dir, sf_pickle, pdbbind_version, ignore_json)].  The test
    [if not home_dir] holds for [None] and for the empty string. *)
Definition train (home_dir : option string) (sf_pickle : option string)
    (pdbbind_version : Z) (ignore_json : bool) : M state (option string) :=
  home_dir <- match home_dir with
              | Some h => if (String.length h =? 0)%nat
                          then lift (path_join (Some (module_dir E)) "PLECscore")
                          else ret h
              | None => lift (path_join (Some (module_dir E)) "PLECscore")
              end ;;
  a <- get_self ;;
  desc_path <- lift (path_join (Some home_dir)
                       (descs_name (depth_protein a) (depth_ligand a) (size a))) ;;
  json_path <- lift (path_join (Some home_dir)
                       (json_name (version a) (depth_protein a) (depth_ligand a)
                          (size a) pdbbind_version)) ;;
  cached <- use_json json_path ignore_json ;;
  if cached then train_from_json json_path pdbbind_version
  else train_from_descs desc_path sf_pickle pdbbind_version.

(** *** [gen_json] *)

(** The attribute list of lines 90-94; no branch binds it for a model that
    is neither an [SGDRegressor] nor an [MLPRegressor]. *)
Definition attributes_of (m : model_obj) : option (list string) :=
  if is_SGDRegressor m then Some ["coef_"; "intercept_"]
  else if is_MLPRegressor m then
    Some ["loss_"; "coefs_"; "intercepts_"; "n_iter_"; "n_layers_"; "n_outputs_";
          "out_activation_"]
  else None.

(** The items of a list or tuple. *)
Definition seq_items (v : pyval) : list pyval :=
  match v with
  | VList l | VTuple l => l
  | _ => []
  end.

(** The conversion of one attribute (lines 98-104).  The source tests
    against [np.array]. *)
Definition to_json_value (attr : pyval) : result pyval :=
  match isinstance attr np_array_fn with
  | Raise e => Raise e
  | Ok true => np_tolist E attr
  | Ok false =>
      match isinstance attr (class_tuple [cls_list; cls_tuple]) with
      | Raise e => Raise e
      | Ok false => Ok attr
      | Ok true =>
          match item0 (seq_items attr) with
          | Raise e => Raise e
          | Ok x0 =>
              match isinstance x0 np_array_fn with
              | Raise e => Raise e
              | Ok true =>
                  match tolist_all (seq_items attr) with
                  | Raise e => Raise e
                  | Ok l => Ok (VList l)
                  end
              | Ok false => Ok attr
              end
          end
      end
  end.

(** Lines 107-113: the path is built from the [home_dir] that [gen_json]
    received, then the document is written. *)
Definition write_json (home_dir : option string) (pdbbind_version : Z)
    (out : list (string * pyval)) : M state string :=
  a <- get_self ;;
  json_path <- lift (path_join home_dir
                       (json_name (version a) (depth_protein a) (depth_ligand a)
                          (size a) pdbbind_version)) ;;
  in_world (json_dump json_path (VDict out)) ;;;
  ret json_path.

(** [gen_json(home_dir, pdbbind_version)].  The inner call is
    [self.train(home_dir=home_dir)], with the defaults of [train] for the
    rest. *)
Definition gen_json (home_dir : option string) (pdbbind_version : Z) : M state string :=
  train home_dir None 2016 false ;;;
  a <- get_self ;;
  let attributes := attributes_of (model a) in
  let out := [] in
  attributes <- match attributes with
                | Some l => ret l
                | None => raise (UnboundLocalError "attributes")
                end ;;
  out <- fold_each attributes out (λ out attr_name,
           attr <- getattr_model attr_name ;;
           attr <- lift (to_json_value attr) ;;
           ret (dict_set attr_name attr out)) ;;
  write_json home_dir pdbbind_version out.

(** *** [load] *)

(** The [for]/[else] of lines 186-195: the first candidate that is a file. *)
Fixpoint probe (candidates : list string) : M world (option string) :=
  match candidates with
  | [] => ret None
  | f :: rest =>
      present <- isfile f ;;
      if present then ret (Some f) else probe rest
  end.

(** [PLECscore.load(filename, version, pdbbind_version)], a class method:
    its [self] is the class. *)
Definition load (filename : option string) (version : string) (pdbbind_version : Z)
  : M world PLECscore :=
  filename <- match filename with
              | Some f => ret (Some f)
              | None =>
                  v <- class_getattr "version" ;;
                  dp <- class_getattr "depth_protein" ;;
                  dl <- class_getattr "depth_ligand" ;;
                  sz <- class_getattr "size" ;;
                  dp <- lift (fmt_i_val dp) ;;
                  dl <- lift (fmt_i_val dl) ;;
                  sz <- lift (fmt_i_val sz) ;;
                  let fname := "PLEC" ++ fmt_s_val v ++ "_p" ++ dp ++ "_l" ++ dl
                                 ++ "_pdbbind" ++ fmt_i pdbbind_version
                                 ++ "_s" ++ sz ++ ".pickle" in
                  beside <- lift (path_join (Some (module_dir E)) fname) ;;
                  found <- probe [fname; beside] ;;
                  match found with
                  | Some f => ret (Some f)
                  | None =>
                      print_err "No pickle, training new scoring function." ;;;
                      sf <- init None (-1) version 5 1 65536 ;;
                      on_object sf (train None None pdbbind_version false)
                  end
              end ;;
  scorer_load filename.

End Methods.

(** ** Notions the properties are stated with *)

Definition logged (c : call) (w : world) : world :=
  {| files := files w; stderr := stderr w; calls := c :: calls w |}.

Definition printed (line : string) (w : world) : world :=
  {| files := files w; stderr := line :: stderr w; calls := calls w |}.

Section Paths.

Variable E : Env.

(** The directory [train] works in (lines 117-118). *)
Definition home_of (home_dir : option string) : string :=
  match home_dir with
  | Some h => if (String.length h =? 0)%nat then join (module_dir E) "PLECscore" else h
  | None => join (module_dir E) "PLECscore"
  end.

Definition desc_path_of (a : PLECscore) (home_dir : option string) : string :=
  join (home_of home_dir) (descs_name (depth_protein a) (depth_ligand a) (size a)).

Definition json_path_of (a : PLECscore) (home_dir : option string) (pdbbind_version : Z)
  : string :=
  join (home_of home_dir)
    (json_name (version a) (depth_protein a) (depth_ligand a) (size a) pdbbind_version).

(** The condition of line 127, on the state [train] starts in. *)
Definition fast_path (s : state) (home_dir : option string) (pdbbind_version : Z)
    (ignore_json : bool) : bool :=
  String.eqb (version (self s)) "linear"
  && bool_decide (is_Some (files (outside s) !! json_path_of (self s) home_dir pdbbind_version))
  && negb ignore_json.

(** The state after the condition is evaluated: [isfile] is called only for
    the linear variant. *)
Definition after_test (s : state) (home_dir : option string) (pdbbind_version : Z) : state :=
  if String.eqb (version (self s)) "linear"
  then {| self := self s;
          outside := logged (call_isfile (json_path_of (self s) home_dir pdbbind_version))
                       (outside s) |}
  else s.

End Paths.

(** The exception of [isinstance(attr, np.array)]. *)
Definition isinstance_error : exn :=
  TypeError "isinstance() arg 2 must be a type or tuple of types".

(** The exception the first round of the loop of lines 97-105 ends in. *)
Definition first_error (a : PLECscore) (name : string) : exn :=
  match attrs (model a) !! name with
  | None => AttributeError name
  | Some _ => isinstance_error
  end.

(** The exception [gen_json] ends in once [train] has returned. *)
Definition export_error (a : PLECscore) : exn :=
  if is_SGDRegressor (model a) then first_error a "coef_"
  else if is_MLPRegressor (model a) then first_error a "loss_"
  else UnboundLocalError "attributes".

(** The loop of lines 136-142 as a recursion on the items of the document,
    on the model alone: the value of each item is converted and set on the
    model under the item's name, in the order of the document, and the first
    exception ends the loop with the model as it is then. *)
Fixpoint setattr_items (E : Env) (items : list (string * pyval)) (m : model_obj)
  : result unit * model_obj :=
  match items with
  | [] => (Ok tt, m)
  | (k, v) :: rest =>
      match from_json_value E v with
      | Raise e => (Raise e, m)
      | Ok v' =>
          let m' := {| est := est m; attrs := (py_setattr E (est m) (attrs m) k v').2 |} in
          match (py_setattr E (est m) (attrs m) k v').1 with
          | Raise e => (Raise e, m')
          | Ok _ => setattr_items E rest m'
          end
      end
  end.

(** What [train] returns when that loop is all it does: [None] if the loop
    ends normally, its exception otherwise. *)
Definition loaded (r : result unit) : result (option string) :=
  match r with
  | Ok _ => Ok None
  | Raise e => Raise e
  end.

(** *** Sequences of operations *)

(** The three operations a caller can run on a scorer. *)
Inductive operation :=
| GenerateTrainingData (pdbbind_dir : string) (pdbbind_versions : list Z)
    (home_dir : option string)
| Train (home_dir sf_pickle : option string) (pdbbind_version : Z) (ignore_json : bool)
| ExportParameters (home_dir : option string) (pdbbind_version : Z).

(** One operation: whatever it returns or raises, the caller goes on with
    the object in the state the operation left it in. *)
Definition run_operation (E : Env) (op : operation) (s : state) : state :=
  match op with
  | GenerateTrainingData dir vs hd => (gen_training_data E dir vs hd s).2
  | Train hd sfp pv ij => (train E hd sfp pv ij s).2
  | ExportParameters hd pv => (gen_json E hd pv s).2
  end.

Definition run_operations (E : Env) (ops : list operation) (s : state) : state :=
  foldl (λ s op, run_operation E op s) s ops.

(** *** What a call that saved the scorer returns *)

(** The path the scorer is saved under: the one given, or the one built
    from the configuration. *)
Definition artifact_path (a : PLECscore) (sf_pickle : option string) (pv : Z) : string :=
  match sf_pickle with
  | Some f => f
  | None => pickle_name (version a) (depth_protein a) (depth_ligand a) pv (size a)
  end.

(** What a call that saved the scorer returns. *)
Definition saved_at (sf_pickle : option string) (pv : Z) (r : option string) (s' : state)
  : Prop :=
  r = Some (artifact_path (self s') sf_pickle pv)
  ∧ files (outside s') !! artifact_path (self s') sf_pickle pv = Some (FPickle (self s')).

(** *** Relations between the first and the last state of a computation *)

Definition keeps {S A} (R : S → S → Prop) (m : M S A) : Prop := ∀ s, R s (m s).2.

Definition returns {S A} (Q : A → S → Prop) (m : M S A) : Prop :=
  ∀ s a s', m s = (Ok a, s') → Q a s'.

(** A relation on states made of one on the object and one on the world. *)
Definition both (Ra : PLECscore → PLECscore → Prop) (Rw : world → world → Prop)
  : state → state → Prop :=
  λ s s', Ra (self s) (self s') ∧ Rw (outside s) (outside s').

(** The calls and the files of the three stages of the module. *)
Definition constructor_call (c : call) : Prop :=
  match c with
  | call_partial_PLEC | call_universal_descriptor | call_SGDRegressor
  | call_MLPRegressor | call_RandomForestRegressor | call_scorer_init _ => True
  | _ => False
  end.

Definition dataset_call (c : call) : Prop :=
  match c with
  | call_gen_pdbbind_desc _ | call_load_pdbbind_desc _ _ | call_fit _ _ _
  | call_predict _ | call_save _ => True
  | _ => False
  end.

Definition dataset_file (f : file) : Prop :=
  match f with
  | FCsv _ | FPickle _ => True
  | _ => False
  end.

(** The calls made between two worlds, most recent first. *)
Definition new_calls (w w' : world) : list call :=
  take (length (calls w') - length (calls w)) (calls w').

(** The object keeps its configuration and the class of its model. *)
Definition same_setup (a a' : PLECscore) : Prop :=
  config a' = config a ∧ est (model a') = est (model a).

(** The object keeps the settings it was constructed with and the estimator
    it was given; of the protein, all that can happen is that it is taken
    off. *)
Definition same_settings (a a' : PLECscore) : Prop :=
  (protein a' = protein a ∨ protein a' = None)
  ∧ n_jobs a' = n_jobs a ∧ version a' = version a
  ∧ depth_protein a' = depth_protein a ∧ depth_ligand a' = depth_ligand a
  ∧ size a' = size a
  ∧ est (model a') = est (model a).

(** The object keeps its datasets as well. *)
Definition same_datasets (a a' : PLECscore) : Prop :=
  same_setup a a' ∧
  train_descs a' = train_descs a ∧ train_target a' = train_target a ∧
  test_descs a' = test_descs a ∧ test_target a' = test_target a.

(** The world sees new calls, all of them in [P]. *)
Definition only_calls (P : call → Prop) (w w' : world) : Prop :=
  ∃ new, calls w' = (new ++ calls w)%list ∧ Forall P new.

(** Every JSON document of the later world was in the earlier one. *)
Definition no_new_json (w w' : world) : Prop :=
  ∀ p doc, files w' !! p = Some (FJson doc) → files w !! p = Some (FJson doc).

Definition training_world (P : call → Prop) (w w' : world) : Prop :=
  only_calls P w w' ∧ no_new_json w w'.

(** No call, no file written. *)
Definition quiet (w w' : world) : Prop :=
  calls w' = calls w ∧ files w' = files w.

Definition not_json_dump (c : call) : Prop :=
  match c with call_json_dump _ => False | _ => True end.

Definition not_json_load (c : call) : Prop :=
  match c with call_json_load _ => False | _ => True end.

(** *** The claims the source does not bear out, as they are worded *)

(** The calls that build the feature extractor, and the ones that build a
    model. *)
Definition builds_extractor (c : call) : Prop :=
  c = call_partial_PLEC ∨ c = call_universal_descriptor.

Definition builds_model (c : call) : Prop :=
  c = call_SGDRegressor ∨ c = call_MLPRegressor ∨ c = call_RandomForestRegressor.

(** C4 as the specification words it: the construction is rejected with a
    [ValueError] that names the version, and no call made on the way builds a
    feature extractor or a model. *)
Definition rejected_before_building (protein : option string) (n_jobs : Z)
    (version : string) (dp dl sz : Z) (w : world) : Prop :=
  let r := init protein n_jobs version dp dl sz w in
  r.1 = Raise (ValueError (unsupported_version version))
  ∧ ∀ c, c ∈ new_calls w r.2 → ¬ builds_extractor c ∧ ¬ builds_model c.

(** The exception of [path_join(None, ...)]. *)
Definition path_error : exn :=
  TypeError "expected str, bytes or os.PathLike object, not NoneType".

(** C10 as the specification words it: with [home_dir] left at [None],
    [gen_json] fails in the construction of the output path. *)
Definition fails_building_path (E : Env) (pv : Z) (s : state) : Prop :=
  (gen_json E None pv s).1 = Raise path_error.

(** C9 as the specification words it: after any operations the six fields
    are what they were. *)
Definition configuration_fixed (E : Env) (ops : list operation) (s : state) : Prop :=
  config (self (run_operations E ops s)) = config (self s).

(** ** A concrete installation

    An environment and some worlds on which the methods can be run. *)
Module Sample.

Definition zero : pyfloat := Dec 0 0.

Definition weights : pyval := VArray (VList [VFloat (Dec 25 (-2)); VFloat (Dec (-3) (-1))]).
Definition bias : pyval := VArray (VList [VFloat zero]).

Definition fitted (e : estimator) : list (string * pyval) :=
  match e with
  | SGDRegressor _ => [("coef_", weights); ("intercept_", bias)]
  | MLPRegressor _ => [("loss_", VFloat zero); ("coefs_", VList [weights]);
                       ("intercepts_", VList [bias]); ("n_iter_", VInt 3);
                       ("n_layers_", VInt 5); ("n_outputs_", VInt 1);
                       ("out_activation_", VStr "identity")]
  | RandomForestRegressor _ => [("oob_prediction_", VArray (VList [VFloat zero]))]
  end.

(** What the sample does not cover. *)
Definition uncovered {A} : result A := Raise (LibraryError "not covered by the sample").

(** [int(f)] on the floats that are whole numbers below [2^53], which a
    double holds as they are; on an infinity and on NaN it raises. *)
Definition to_int (f : pyfloat) : result Z :=
  match f with
  | Dec m e =>
      if (0 <=? e) && (Z.abs (m * 10 ^ e) <? 2 ^ 53) then Ok (m * 10 ^ e) else uncovered
  | Inf _ => Raise (LibraryError "OverflowError: cannot convert float infinity to integer")
  | NaN => Raise (ValueError "cannot convert float NaN to integer")
  end.

Definition is_float (v : pyval) : bool :=
  match v with VFloat _ => true | _ => false end.

(** [np.array(x)] on a list of floats, which it takes as they are. *)
Definition array (v : pyval) : result pyval :=
  match v with
  | VList l => if forallb is_float l then Ok (VArray v) else uncovered
  | _ => uncovered
  end.

Definition tolist (a : pyval) : result pyval :=
  match a with
  | VArray d => Ok d
  | _ => Raise (AttributeError "tolist")
  end.

(** [setattr] on an estimator: [__class__] takes only a class and
    [__dict__] only a dictionary, which then becomes the whole instance
    dictionary (the arguments of the constructor are instance attributes
    too and go with the rest; only the library reads them); a name without
    a leading underscore is stored. *)
Definition setattr (e : estimator) (old : gmap string pyval) (name : string) (v : pyval)
  : result unit * gmap string pyval :=
  if String.eqb name "__class__" then
    (Raise (TypeError "__class__ must be set to a class"), old)
  else if String.eqb name "__dict__" then
    match v with
    | VDict items => (Ok tt, list_to_map items)
    | _ => (Raise (TypeError "__dict__ must be set to a dictionary"), old)
    end
  else if String.prefix "_" name then (uncovered, old)
  else (Ok tt, <[name := v]> old).

Definition table : pyval := VList [VList [VInt 1; VInt 0]; VList [VInt 0; VInt 2]].

Definition split (t : pyval) : datasets :=
  {| ds_train_descs := {| is_sparse := true; rows := t |};
     ds_train_target := VArray (VList [VFloat (Dec 61 (-1)); VFloat (Dec 4 0)]);
     ds_test_descs := {| is_sparse := true; rows := t |};
     ds_test_target := VArray (VList [VFloat (Dec 5 0); VFloat (Dec 7 0)]) |}.

Definition env : Env :=
  {| module_dir := "/opt/oddt/scoring/functions";
     scorer_class_attrs := [];
     writable_path := λ _, true;
     py_str := λ _, "object";
     float_to_int := to_int;
     np_array := array;
     np_tolist := tolist;
     py_setattr := setattr;
     sk_fit := λ m _ _, (Ok tt, list_to_map (fitted (est m)) ∪ attrs m);
     sk_predict := λ _ _, Ok (VArray (VList [VFloat (Dec 5 0); VFloat (Dec 6 0)]));
     r2_score := λ _ _, Ok (Dec 5 (-1));
     pearsonr0 := λ _ _, Ok (Dec 7 (-1));
     rmse := λ _ _, Ok (Dec 12 (-1));
     fmt_4f := λ _, "0.5000";
     pdbbind_table := λ _ _ _, Ok table;
     pdbbind_split := λ t _, Ok (split t) |}.

Definition empty_world : world := {| files := ∅; stderr := []; calls := [] |}.

Definition csv_path : string := "home/plecscore_descs_p5_l1_s65536.csv".
Definition json_path : string := "home/plecscore_linear_p5_l1_s65536_pdbbind2016.json".

(** A world that holds the descriptor table under [home]. *)
Definition with_csv : world :=
  {| files := {[ csv_path := FCsv table ]}; stderr := []; calls := [] |}.

(** A world that also holds the published weights of the linear variant. *)
Definition with_json : world :=
  {| files := <[ json_path :=
                   FJson (VDict [("coef_", VList [VFloat (Dec 25 (-2)); VFloat (Dec (-3) (-1))]);
                                 ("intercept_", VList [VFloat zero])]) ]>
                {[ csv_path := FCsv table ]};
     stderr := []; calls := [] |}.

(** A world that holds the descriptor table in the directory beside the
    module. *)
Definition installed : world :=
  {| files := {[ "/opt/oddt/scoring/functions/PLECscore/plecscore_descs_p5_l1_s65536.csv"
                 := FCsv table ]};
     stderr := []; calls := [] |}.

(** A scorer as [__init__] leaves it. *)
Definition fresh (version : string) (m : estimator) : PLECscore :=
  {| protein := None; n_jobs := -1; version := version;
     depth_protein := 5; depth_ligand := 1; size := 65536;
     model := {| est := m; attrs := ∅ |};
     descriptor_generator :=
       {| ud_func := {| pl_depth_ligand := 1; pl_depth_protein := 5; pl_size := 65536;
                        pl_count_bits := true; pl_sparse := true; pl_ignore_hoh := true |};
          ud_protein := None; ud_shape := 65536; ud_sparse := true |};
     score_title := title_name version 5 1;
     train_descs := None; train_target := None;
     test_descs := None; test_target := None |}.

Definition linear : PLECscore := fresh "linear" linear_model.

(** The linear scorer, constructed on a protein. *)
Definition bound : PLECscore := set_protein (Some "1abc.pdb") linear.
Definition nn : PLECscore := fresh "nn" nn_model.
Definition rf : PLECscore := fresh "rf" rf_model.

End Sample.

(** C7 as the specification words it: the number of jobs of the random
    forest is the [n_jobs] given to the constructor. *)
Definition hint_sets_forest_jobs (hint : Z) : Prop :=
  ∀ a w', init None hint "rf" 5 1 65536 Sample.empty_world = (Ok a, w') →
          ∃ p, est (model a) = RandomForestRegressor p ∧ rf_n_jobs p = hint.

(** ** Further notions: what a constructed scorer is, and what stays *)




(** Every file of the earlier world is still a file in the later one. *)
Definition files_kept (w w' : world) : Prop :=
  ∀ p, is_Some (files w !! p) → is_Some (files w' !! p).

Section More_paths.

Variable E : Env.

(** The directory [gen_training_data] works in (lines 74-75): only [None]
    is replaced. *)
Definition gen_home_of (home_dir : option string) : string :=
  match home_dir with
  | None => join (module_dir E) "PLECscore"
  | Some h => h
  end.

(** The file [gen_training_data] has the descriptors written to. *)
Definition gen_desc_path_of (a : PLECscore) (home_dir : option string) : string :=
  join (gen_home_of home_dir) (descs_name (depth_protein a) (depth_ligand a) (size a)).

End More_paths.

(** Lines 159-177 of [train]: predict, report, save. *)
Definition evaluate_and_save (E : Env) (sf_pickle : option string) (pdbbind_version : Z)
  : M state (option string) :=
  Xtest <- getattr_opt "test_descs" test_descs ;;
  test_pred <- predict E Xtest ;;
  ytest <- getattr_opt "test_target" test_target ;;
  Xtrain <- getattr_opt "train_descs" train_descs ;;
  train_pred <- predict E Xtrain ;;
  ytrain <- getattr_opt "train_target" train_target ;;
  let sets := [("Test", test_pred, ytest); ("Train", train_pred, ytrain)] in
  a <- get_self ;;
  sets <- (if String.eqb (version a) "rf" then
             oob <- getattr_model "oob_prediction_" ;;
             ytrain' <- getattr_opt "train_target" train_target ;;
             ret (sets ++ [("OOB", oob, ytrain')])%list
           else ret sets) ;;
  for_each sets (report E) ;;;
  save_result E sf_pickle pdbbind_version.

(** The matrix the model is fit on (lines 154-157): dense for the random
    forest, as loaded for the others. *)
Definition fit_matrix (a : PLECscore) (X : descs) : descs :=
  if String.eqb (version a) "rf" then toarray X else X.

(** [fit] once its call is made: the model takes the attributes the
    estimator leaves it with. *)
Definition fit_outcome (E : Env) (X : descs) (y : pyval) : M state unit :=
  a <- get_self ;;
  let '(r, new) := sk_fit E (model a) X y in
  update_self (set_attrs new) ;;;
  lift r.

(** * Properties *)

(** ** The methods on the sample installation *)

Example json_name_2016 :
  json_name "linear" 5 1 65536 2016 = "plecscore_linear_p5_l1_s65536_pdbbind2016.json".
Proof. vm_compute. reflexivity. Qed.

Example path_join_plain : path_join (Some "home") "x.csv" = Ok "home/x.csv".
Proof. reflexivity. Qed.

Example init_linear_is_fresh :
  (init None (-1) "linear" 5 1 65536 Sample.empty_world).1 = Ok Sample.linear.
Proof. vm_compute. reflexivity. Qed.

Example train_linear_slow :
  (train Sample.env (Some "home") None 2016 false
     {| self := Sample.linear; outside := Sample.with_csv |}).1
  = Ok (Some "PLEClinear_p5_l1_pdbbind2016_s65536.pickle").
Proof. vm_compute. reflexivity. Qed.

Example train_linear_fast :
  (train Sample.env (Some "home") None 2016 false
     {| self := Sample.linear; outside := Sample.with_json |}).1
  = Ok None.
Proof. vm_compute. reflexivity. Qed.

Example train_rf_calls :
  calls (outside (train Sample.env (Some "home") None 2016 false
     {| self := Sample.rf; outside := Sample.with_csv |}).2)
  = [call_save "PLECrf_p5_l1_pdbbind2016_s65536.pickle"; call_predict (ds_train_descs (Sample.split Sample.table));
     call_predict (ds_test_descs (Sample.split Sample.table));
     call_fit rf_model (toarray (ds_train_descs (Sample.split Sample.table)))
       (ds_train_target (Sample.split Sample.table));
     call_load_pdbbind_desc Sample.csv_path 2016].
Proof. vm_compute. reflexivity. Qed.

(** ** Relations a computation keeps between its first and last state *)

Section Keeps.

Context {S : Type} (R : S → S → Prop).
Hypothesis R_refl : ∀ s, R s s.
Hypothesis R_trans : ∀ s1 s2 s3, R s1 s2 → R s2 s3 → R s1 s3.

Lemma keeps_ret {A} (a : A) : keeps R (ret a).
Proof. intros s. apply R_refl. Qed.

Lemma keeps_raise {A} (e : exn) : keeps R (raise (A := A) e).
Proof. intros s. apply R_refl. Qed.

Lemma keeps_lift {A} (r : result A) : keeps R (lift r).
Proof. intros s. apply R_refl. Qed.

Lemma keeps_gets {A} (f : S → A) : keeps R (gets f).
Proof. intros s. apply R_refl. Qed.

Lemma keeps_modify (f : S → S) : (∀ s, R s (f s)) → keeps R (modify f).
Proof. intros Hf s. apply Hf. Qed.

Lemma keeps_bind {A B} (m : M S A) (k : A → M S B) :
  keeps R m → (∀ a, keeps R (k a)) → keeps R (bind m k).
Proof.
  intros Hm Hk s. unfold bind. specialize (Hm s).
  destruct (m s) as [[a|e] s']; simpl in *; [|done].
  eapply R_trans; [exact Hm | apply Hk].
Qed.

Lemma keeps_for_each {A} (xs : list A) (body : A → M S unit) :
  (∀ x, keeps R (body x)) → keeps R (for_each xs body).
Proof.
  intros Hb. induction xs as [|x rest IH]; simpl.
  - apply keeps_ret.
  - apply keeps_bind; [apply Hb | intros _; exact IH].
Qed.

Lemma keeps_fold_each {A B} (xs : list A) (acc : B) (body : B → A → M S B) :
  (∀ b x, keeps R (body b x)) → keeps R (fold_each xs acc body).
Proof.
  intros Hb. revert acc. induction xs as [|x rest IH]; intros acc; simpl.
  - apply keeps_ret.
  - apply keeps_bind; [apply Hb | intros b; apply IH].
Qed.

End Keeps.

(** ** Every method keeps what its effects keep *)

Section Method_invariants.

Variable E : Env.
Variable Ra : PLECscore → PLECscore → Prop.
Variable Rw : world → world → Prop.
Variable allowed : call → Prop.
Variable writable : file → Prop.

Hypothesis Ra_refl : ∀ a, Ra a a.
Hypothesis Ra_trans : ∀ a1 a2 a3, Ra a1 a2 → Ra a2 a3 → Ra a1 a3.
Hypothesis Rw_refl : ∀ w, Rw w w.
Hypothesis Rw_trans : ∀ w1 w2 w3, Rw w1 w2 → Rw w2 w3 → Rw w1 w3.

(** What the relation on objects has to admit: other attributes on the
    model, new datasets, the protein taken off. *)
Hypothesis Ra_attrs : ∀ a new, Ra a (set_attrs new a).
Hypothesis Ra_datasets : ∀ a d, Ra a (set_datasets d a).
Hypothesis Ra_protein : ∀ a, Ra a (set_protein None a).

(** What the relation on worlds has to admit: the allowed calls, lines on
    [stderr], the writable files. *)
Hypothesis Rw_log : ∀ c w, allowed c → Rw w (logged c w).
Hypothesis Rw_print : ∀ line w, Rw w (printed line w).
Hypothesis Rw_write : ∀ p f w, writable f → Rw w (set_files (<[p := f]> (files w)) w).

(** Which calls and files are allowed; a lemma depends on the ones its
    method makes. *)
Hypothesis allowed_constructor : ∀ c, constructor_call c → allowed c.
Hypothesis allowed_dataset : ∀ c, dataset_call c → allowed c.
Hypothesis allowed_isfile : ∀ p, allowed (call_isfile p).
Hypothesis allowed_json_load : ∀ p, allowed (call_json_load p).
Hypothesis writable_dataset : ∀ f, dataset_file f → writable f.

Let R := both Ra Rw.

Lemma both_refl s : R s s.
Proof. split; [apply Ra_refl | apply Rw_refl]. Qed.

Lemma both_trans s1 s2 s3 : R s1 s2 → R s2 s3 → R s1 s3.
Proof. intros [? ?] [? ?]. split; [eapply Ra_trans | eapply Rw_trans]; eauto. Qed.

Lemma keeps_in_world {A} (m : M world A) : keeps Rw m → keeps R (in_world m).
Proof.
  intros Hm s. unfold in_world. specialize (Hm (outside s)).
  destruct (m (outside s)) as [r w]. split; simpl in *; [apply Ra_refl | exact Hm].
Qed.

Lemma keeps_on_object {A} (a : PLECscore) (m : M state A) :
  keeps R m → keeps Rw (on_object a m).
Proof.
  intros Hm w. unfold on_object.
  specialize (Hm {| self := a; outside := w |}).
  destruct (m _) as [r s]. simpl in *. apply Hm.
Qed.

Lemma keeps_update_self (f : PLECscore → PLECscore) :
  (∀ a, Ra a (f a)) → keeps R (update_self f).
Proof. intros Hf s. split; simpl; [apply Hf | apply Rw_refl]. Qed.

Lemma keeps_log (c : call) : allowed c → keeps Rw (log c).
Proof. intros Hc w. apply Rw_log, Hc. Qed.

Lemma keeps_print_err (line : string) : keeps Rw (print_err line).
Proof. intros w. apply Rw_print. Qed.

Lemma keeps_write (p : string) (f : file) :
  writable f → keeps Rw (modify (λ w, set_files (<[p := f]> (files w)) w)).
Proof. intros Hf w. apply Rw_write, Hf. Qed.

(** One step through a computation: a combinator, a primitive effect, or a
    case distinction of the code. *)
Ltac keeps_step :=
  first
  [ apply (keeps_bind R both_trans); [| intros ?]
  | apply (keeps_bind Rw Rw_trans); [| intros ?]
  | apply (keeps_ret R both_refl)
  | apply (keeps_ret Rw Rw_refl)
  | apply (keeps_raise R both_refl)
  | apply (keeps_raise Rw Rw_refl)
  | apply (keeps_lift R both_refl)
  | apply (keeps_lift Rw Rw_refl)
  | apply (keeps_gets R both_refl)
  | apply (keeps_gets Rw Rw_refl)
  | apply (keeps_for_each R both_refl both_trans); intros ?
  | apply (keeps_fold_each R both_refl both_trans); intros ? ?
  | apply keeps_in_world
  | apply keeps_update_self; intros ?;
    first [apply Ra_attrs | apply Ra_datasets | apply Ra_protein]
  | apply keeps_log;
    first [ apply allowed_isfile | apply allowed_json_load
          | apply allowed_dataset; exact I | apply allowed_constructor; exact I ]
  | apply keeps_print_err
  | apply keeps_write; apply writable_dataset; exact I
  | match goal with
    | |- keeps _ (match ?x with _ => _ end) => destruct x
    end ].

Ltac keeps_steps := repeat keeps_step.

Lemma keeps_isfile (p : string) : keeps Rw (isfile p).
Proof. unfold isfile. keeps_steps. Qed.

Lemma keeps_getattr_model (name : string) : keeps R (getattr_model name).
Proof. unfold getattr_model, get_self. keeps_steps. Qed.

Lemma keeps_setattr_model (name : string) (v : pyval) : keeps R (setattr_model E name v).
Proof. unfold setattr_model, get_self. keeps_steps. Qed.

Lemma keeps_getattr_opt {A} (name : string) (f : PLECscore → option A) :
  keeps R (getattr_opt name f).
Proof. unfold getattr_opt, get_self. keeps_steps. Qed.

Lemma keeps_gen_pdbbind_desc dir vs path : keeps R (gen_pdbbind_desc E dir vs path).
Proof. unfold gen_pdbbind_desc, get_self. keeps_steps. Qed.

Lemma keeps_read_pdbbind_desc path pv : keeps R (read_pdbbind_desc E path pv).
Proof. unfold read_pdbbind_desc. keeps_steps. Qed.

Lemma keeps_load_pdbbind_desc path pv : keeps R (load_pdbbind_desc E path pv).
Proof. unfold load_pdbbind_desc. repeat (apply keeps_read_pdbbind_desc || keeps_step). Qed.

Lemma keeps_save filename : keeps R (save E filename).
Proof. unfold save, get_self. keeps_steps. Qed.

Lemma keeps_json_load path : keeps Rw (json_load path).
Proof. unfold json_load. keeps_steps. Qed.

Lemma keeps_fit X y : keeps R (fit E X y).
Proof. unfold fit, get_self. keeps_steps. Qed.

Lemma keeps_predict X : keeps R (predict E X).
Proof. unfold predict, get_self. keeps_steps. Qed.

Lemma keeps_report set : keeps R (report E set).
Proof. unfold report. destruct set as [[name pred] target]. keeps_steps. Qed.

Lemma keeps_set_from_json items : keeps R (set_from_json E items).
Proof. unfold set_from_json. repeat (apply keeps_setattr_model || keeps_step). Qed.

Lemma keeps_train_from_json path pv : keeps R (train_from_json E path pv).
Proof.
  unfold train_from_json, dict_items, get_self.
  repeat (apply keeps_json_load || apply keeps_set_from_json || keeps_step).
Qed.

Lemma keeps_fit_and_save sfp pv : keeps R (fit_and_save E sfp pv).
Proof.
  unfold fit_and_save, get_self.
  repeat (apply keeps_getattr_opt || apply keeps_fit || apply keeps_predict
          || apply keeps_getattr_model || apply keeps_report || apply keeps_save
          || keeps_step).
Qed.

Lemma keeps_train_from_descs path sfp pv : keeps R (train_from_descs E path sfp pv).
Proof.
  unfold train_from_descs.
  repeat (apply keeps_load_pdbbind_desc || apply keeps_fit_and_save || keeps_step).
Qed.

Lemma keeps_use_json path ij : keeps R (use_json path ij).
Proof. unfold use_json, get_self. repeat (apply keeps_isfile || keeps_step). Qed.

Lemma keeps_train hd sfp pv ij : keeps R (train E hd sfp pv ij).
Proof.
  unfold train, get_self.
  repeat (apply keeps_use_json || apply keeps_train_from_json
          || apply keeps_train_from_descs || keeps_step).
Qed.

Lemma keeps_gen_training_data dir vs hd : keeps R (gen_training_data E dir vs hd).
Proof.
  unfold gen_training_data, gen_pdbbind_desc, get_self. keeps_steps.
Qed.

Lemma keeps_evaluate_and_save sfp pv : keeps R (evaluate_and_save E sfp pv).
Proof.
  unfold evaluate_and_save, get_self.
  repeat (apply keeps_getattr_opt || apply keeps_predict
          || apply keeps_getattr_model || apply keeps_report || apply keeps_save
          || keeps_step).
Qed.

Lemma keeps_fit_outcome X y : keeps R (fit_outcome E X y).
Proof. unfold fit_outcome, get_self. keeps_steps. Qed.

Lemma keeps_init protein nj v dp dl sz : keeps Rw (init protein nj v dp dl sz).
Proof. unfold init, make_model, scorer_init. keeps_steps. Qed.

End Method_invariants.

(** ** The relations the methods keep *)

Lemma new_calls_app (w w' : world) (new : list call) :
  calls w' = (new ++ calls w)%list → new_calls w w' = new.
Proof.
  intros H. unfold new_calls. rewrite H, length_app.
  replace (length new + length (calls w) - length (calls w))%nat with (length new) by lia.
  by rewrite take_app_length.
Qed.

Lemma same_setup_refl a : same_setup a a.
Proof. by split. Qed.

Lemma same_setup_trans a1 a2 a3 : same_setup a1 a2 → same_setup a2 a3 → same_setup a1 a3.
Proof. intros [? ?] [? ?]. split; congruence. Qed.

Lemma same_setup_attrs a new : same_setup a (set_attrs new a).
Proof. by split. Qed.

Lemma same_setup_datasets a d : same_setup a (set_datasets d a).
Proof. by split. Qed.

Lemma same_datasets_refl a : same_datasets a a.
Proof. repeat split. Qed.

Lemma same_datasets_trans a1 a2 a3 :
  same_datasets a1 a2 → same_datasets a2 a3 → same_datasets a1 a3.
Proof.
  intros (? & ? & ? & ? & ?) (? & ? & ? & ? & ?).
  split; [by eapply same_setup_trans | repeat split; congruence].
Qed.

Lemma same_datasets_attrs a new : same_datasets a (set_attrs new a).
Proof. repeat split. Qed.

Lemma same_settings_refl a : same_settings a a.
Proof. unfold same_settings. auto 10. Qed.

Lemma same_settings_trans a1 a2 a3 :
  same_settings a1 a2 → same_settings a2 a3 → same_settings a1 a3.
Proof.
  intros (Hp & ? & ? & ? & ? & ? & ?) (Hp' & ? & ? & ? & ? & ? & ?).
  repeat split; try congruence.
  destruct Hp' as [Hp'|Hp']; [rewrite Hp'; exact Hp | by right].
Qed.

Lemma same_settings_attrs a new : same_settings a (set_attrs new a).
Proof. unfold same_settings. simpl. auto 10. Qed.

Lemma same_settings_datasets a d : same_settings a (set_datasets d a).
Proof. unfold same_settings. simpl. auto 10. Qed.

Lemma same_settings_protein a : same_settings a (set_protein None a).
Proof. unfold same_settings. simpl. auto 10. Qed.

Lemma same_setup_settings a a' : same_setup a a' → same_settings a a'.
Proof.
  intros [Hc He]. unfold config in Hc. injection Hc as Hp Hn Hv Hdp Hdl Hs.
  unfold same_settings. auto 10.
Qed.

Section Training_world.

Variable P : call → Prop.

Lemma training_world_refl w : training_world P w w.
Proof. split; [by exists [] | by intros ? ?]. Qed.

Lemma training_world_trans w1 w2 w3 :
  training_world P w1 w2 → training_world P w2 w3 → training_world P w1 w3.
Proof.
  intros [(n1 & E1 & F1) J1] [(n2 & E2 & F2) J2]. split.
  - exists (n2 ++ n1)%list. split.
    + by rewrite E2, E1, app_assoc.
    + by apply Forall_app.
  - intros p doc H. by apply J1, J2.
Qed.

Lemma training_world_log c w : P c → training_world P w (logged c w).
Proof.
  intros Hc. split; [| by intros ? ?].
  exists [c]. split; [done | by constructor].
Qed.

Lemma training_world_print line w : training_world P w (printed line w).
Proof. split; [by exists [] | by intros ? ?]. Qed.

Lemma training_world_write p f w :
  dataset_file f → training_world P w (set_files (<[p := f]> (files w)) w).
Proof.
  intros Hf. split; [by exists [] |].
  intros q doc. simpl. destruct (decide (p = q)) as [->|Hne].
  - rewrite lookup_insert_eq. intros [= ->]. destruct Hf.
  - by rewrite lookup_insert_ne.
Qed.

End Training_world.

Lemma quiet_refl w : quiet w w.
Proof. by split. Qed.

Lemma quiet_trans w1 w2 w3 : quiet w1 w2 → quiet w2 w3 → quiet w1 w3.
Proof. intros [? ?] [? ?]. split; congruence. Qed.

(** ** What [train] does to the object and the world *)

Section Train_facts.

Variable E : Env.

Lemma not_json_dump_dataset c : dataset_call c → not_json_dump c.
Proof. by destruct c. Qed.

Lemma not_json_load_dataset c : dataset_call c → not_json_load c.
Proof. by destruct c. Qed.

(** The side conditions of the lemmas on [keeps]. *)
Ltac relation_facts :=
  first
  [ exact same_settings_refl | exact same_settings_trans
  | exact same_settings_attrs | exact same_settings_datasets
  | exact same_settings_protein
  | exact same_setup_refl | exact same_setup_trans
  | exact same_setup_attrs | exact same_setup_datasets
  | exact same_datasets_refl | exact same_datasets_trans
  | exact same_datasets_attrs
  | exact (training_world_refl _) | exact (training_world_trans _)
  | exact (training_world_log _) | exact (training_world_print _)
  | exact (training_world_write _)
  | exact quiet_refl | exact quiet_trans
  | exact not_json_dump_dataset | exact not_json_load_dataset
  | by intros ].

(** [train] keeps the settings and the estimator, writes no JSON document
    and never calls [json.dump]. *)
Lemma train_keeps hd sfp pv ij :
  keeps (both same_settings (training_world not_json_dump)) (train E hd sfp pv ij).
Proof.
  apply keeps_train with (allowed := not_json_dump) (writable := dataset_file);
    relation_facts.
Qed.

Lemma gen_training_data_keeps dir vs hd :
  keeps (both same_settings (training_world not_json_dump)) (gen_training_data E dir vs hd).
Proof.
  apply keeps_gen_training_data with (allowed := not_json_dump) (writable := dataset_file);
    relation_facts.
Qed.

(** After the descriptors are loaded, [json.load] is not called. *)
Lemma fit_and_save_keeps sfp pv :
  keeps (both same_settings (training_world not_json_load)) (fit_and_save E sfp pv).
Proof.
  apply keeps_fit_and_save with (allowed := not_json_load) (writable := dataset_file);
    relation_facts.
Qed.

Lemma read_pdbbind_desc_keeps path pv :
  keeps (both same_settings (training_world not_json_load)) (read_pdbbind_desc E path pv).
Proof.
  apply keeps_read_pdbbind_desc; relation_facts.
Qed.

(** The loop over the JSON items changes attributes of the model only. *)
Lemma set_from_json_keeps items :
  keeps (both same_datasets quiet) (set_from_json E items).
Proof.
  apply keeps_set_from_json; relation_facts.
Qed.

Lemma train_unfold hd sfp pv ij s :
  train E hd sfp pv ij s =
  if fast_path E s hd pv ij
  then train_from_json E (json_path_of E (self s) hd pv) pv (after_test E s hd pv)
  else train_from_descs E (desc_path_of E (self s) hd) sfp pv (after_test E s hd pv).
Proof.
  unfold fast_path, after_test, json_path_of, desc_path_of, home_of.
  destruct s as [a w].
  cbv beta iota delta [train bind use_json get_self gets lift ret in_world isfile log
                         modify path_join].
  destruct hd as [h|]; simpl.
  - destruct (String.length h =? 0)%nat; simpl;
      destruct (String.eqb (version a) "linear"); simpl; try reflexivity;
      case_bool_decide; simpl; try reflexivity; destruct ij; reflexivity.
  - destruct (String.eqb (version a) "linear"); simpl; try reflexivity;
      case_bool_decide; simpl; try reflexivity; destruct ij; reflexivity.
Qed.

End Train_facts.

Section Branch_facts.

Variable E : Env.

(** The branch that loads the weights: one call, to [json.load]; no file is
    written, the datasets are left alone, and no path is returned. *)
Lemma train_from_json_effect path pv s :
  (((train_from_json E path pv s).1 = Ok None
    ∨ ∃ e, (train_from_json E path pv s).1 = Raise e))
  ∧ calls (outside (train_from_json E path pv s).2) = call_json_load path :: calls (outside s)
  ∧ files (outside (train_from_json E path pv s).2) = files (outside s)
  ∧ same_datasets (self s) (self (train_from_json E path pv s).2).
Proof.
  destruct s as [a w].
  cbv beta iota delta [train_from_json bind get_self gets in_world print_err modify
                         json_load log dict_items ret raise lift].
  simpl.
  destruct (files w !! path) as [[doc| | |]|]; simpl;
    try (split; [right; eexists; reflexivity | repeat split; reflexivity]).
  destruct doc; simpl;
    try (split; [right; eexists; reflexivity | repeat split; reflexivity]).
  match goal with
  | |- context [set_from_json E ?i ?s0] =>
      pose proof (set_from_json_keeps E i s0) as [Hd [Hc Hf]];
      destruct (set_from_json E i s0) as [[u|e] s3]
  end; simpl in *.
  - split; [by left | by rewrite Hc, Hf].
  - split; [right; eauto | by rewrite Hc, Hf].
Qed.

(** The loop over the items of the document is [setattr_items] on the
    model, and touches nothing else. *)
Lemma set_from_json_run items s :
  set_from_json E items s
  = ((setattr_items E items (model (self s))).1,
     {| self := set_model (setattr_items E items (model (self s))).2 (self s);
        outside := outside s |}).
Proof.
  revert s. induction items as [|[k v] rest IH]; intros [a w].
  - by destruct a.
  - unfold set_from_json in *. simpl.
    cbv beta iota delta [bind lift setattr_model get_self gets update_self modify].
    simpl. destruct (from_json_value E v) as [v'|e]; simpl; [| by destruct a].
    destruct (py_setattr E (est (model a)) (attrs (model a)) k v') as [[u|e] new]; simpl.
    + by rewrite IH.
    + reflexivity.
Qed.

(** The branch that loads the weights, on a document that is an object. *)
Lemma train_from_json_run path pv items s :
  files (outside s) !! path = Some (FJson (VDict items)) →
  (train_from_json E path pv s).1 = loaded (setattr_items E items (model (self s))).1
  ∧ model (self (train_from_json E path pv s).2)
    = (setattr_items E items (model (self s))).2.
Proof.
  intros Hf. destruct s as [a w]. simpl in Hf.
  cbv beta iota delta [train_from_json bind get_self gets in_world print_err modify
                         json_load log dict_items ret raise lift].
  simpl. rewrite Hf. simpl. rewrite set_from_json_run. simpl.
  by destruct (setattr_items E items (model a)) as [[u|e] m].
Qed.

(** The branch that fits the model: its first call is to the dataset loader,
    none of its calls is to [json.load], and it writes no JSON document. *)
Lemma train_from_descs_effect path sfp pv s :
  ∃ rest,
    calls (outside (train_from_descs E path sfp pv s).2)
    = (rest ++ call_load_pdbbind_desc path pv :: calls (outside s))%list
    ∧ Forall not_json_load rest
    ∧ no_new_json (outside s) (outside (train_from_descs E path sfp pv s).2)
    ∧ same_settings (self s) (self (train_from_descs E path sfp pv s).2).
Proof.
  set (s1 := {| self := self s;
                outside := logged (call_load_pdbbind_desc path pv) (outside s) |}).
  set (m := (read_pdbbind_desc E path pv ;;; fit_and_save E sfp pv)).
  assert (train_from_descs E path sfp pv s = m s1) as -> by (by destruct s).
  assert (keeps (both same_settings (training_world not_json_load)) m) as Hm.
  { apply keeps_bind.
    - intros ? ? ? [? ?] [? ?].
      split; [by eapply same_settings_trans | by eapply training_world_trans].
    - apply read_pdbbind_desc_keeps.
    - intros _. apply fit_and_save_keeps. }
  destruct (Hm s1) as [Hs [(rest & Hc & Hr) Hj]].
  exists rest. split; [exact Hc |]. split; [exact Hr |]. split; [exact Hj | exact Hs].
Qed.

End Branch_facts.

(** ** The claims about [train] *)

Lemma fast_path_spec (E : Env) (s : state) (hd : option string) (pv : Z) (ij : bool) :
  fast_path E s hd pv ij = true ↔
  version (self s) = "linear"
  ∧ is_Some (files (outside s) !! json_path_of E (self s) hd pv)
  ∧ ij = false.
Proof.
  unfold fast_path. rewrite !andb_true_iff, String.eqb_eq, bool_decide_eq_true,
    negb_true_iff. tauto.
Qed.

(** C2: [train] takes the branch that loads the model attributes from the
    JSON document exactly when the version is linear, the document exists at
    the path built from the configuration, and [ignore_json] is false.  In
    that case the only calls are [isfile] and [json.load], the dataset loader
    is not called, the configuration and the datasets of the scorer are
    untouched, and the items of the document are set on the model: what
    [train] returns and the model it leaves are those of the loop over the
    items, converted and set in turn.  In every other case, [ignore_json]
    set with the document present included, the dataset loader is called on
    the descriptor path, and [json.load] is not. *)
Theorem train_fast_path_iff (E : Env) (s : state) (hd sfp : option string) (pv : Z)
    (ij : bool) :
  let r := (train E hd sfp pv ij s).1 in
  let s' := (train E hd sfp pv ij s).2 in
  let new := new_calls (outside s) (outside s') in
  let jp := json_path_of E (self s) hd pv in
  let cached :=
    version (self s) = "linear" ∧ is_Some (files (outside s) !! jp) ∧ ij = false in
  (cached →
     new = [call_json_load jp; call_isfile jp]
     ∧ (∀ p v, call_load_pdbbind_desc p v ∉ new)
     ∧ same_datasets (self s) (self s')
     ∧ ∀ items, files (outside s) !! jp = Some (FJson (VDict items)) →
         r = loaded (setattr_items E items (model (self s))).1
         ∧ model (self s') = (setattr_items E items (model (self s))).2)
  ∧ (¬ cached →
     call_load_pdbbind_desc (desc_path_of E (self s) hd) pv ∈ new
     ∧ Forall not_json_load new).
Proof.
  intros r s' new jp cached.
  assert (cached ↔ fast_path E s hd pv ij = true) as Hcached
    by (symmetry; apply fast_path_spec).
  subst r s' new. rewrite train_unfold.
  destruct (fast_path E s hd pv ij) eqn:Hf.
  - split; [intros _ | intros H; by destruct H; apply Hcached].
    apply fast_path_spec in Hf as (Hv & _ & _).
    destruct (train_from_json_effect E (json_path_of E (self s) hd pv) pv
                (after_test E s hd pv)) as (_ & Hc & _ & Hd).
    pose proof (train_from_json_run E (json_path_of E (self s) hd pv) pv) as Hrun.
    specialize (λ items, Hrun items (after_test E s hd pv)).
    unfold after_test in *. rewrite Hv in *. simpl in *.
    subst jp.
    rewrite (new_calls_app _ _ [call_json_load (json_path_of E (self s) hd pv);
                                call_isfile (json_path_of E (self s) hd pv)])
      by (by rewrite Hc).
    split; [done |]. split; [| split; [exact Hd | exact Hrun]].
    intros p v Hin. rewrite !elem_of_cons in Hin.
    destruct Hin as [?|[?|Hin]]; [done | done | by apply elem_of_nil in Hin].
  - split; [intros H; apply Hcached in H; discriminate | intros _].
    clear Hcached.
    destruct (train_from_descs_effect E (desc_path_of E (self s) hd) sfp pv
                (after_test E s hd pv)) as (rest & Hc & Hr & _ & _).
    unfold after_test in *.
    destruct (String.eqb (version (self s)) "linear"); simpl in *.
    + erewrite new_calls_app; last first.
      { rewrite Hc. rewrite (cons_middle (call_load_pdbbind_desc _ _)).
        rewrite (cons_middle (call_isfile _)). rewrite !app_assoc. reflexivity. }
      split; [set_solver |].
      repeat apply Forall_app_2; [done | | ]; by repeat constructor.
    + erewrite new_calls_app; last first.
      { rewrite Hc. rewrite (cons_middle (call_load_pdbbind_desc _ _)).
        rewrite !app_assoc. reflexivity. }
      split; [set_solver |].
      repeat apply Forall_app_2; [done | ]; by repeat constructor.
Qed.

Lemma train_fast_path_iff_witness :
  let s := {| self := Sample.linear; outside := Sample.with_json |} in
  let s' := (train Sample.env (Some "home") None 2016 false s).2 in
  new_calls (outside s) (outside s')
  = [call_json_load Sample.json_path; call_isfile Sample.json_path]
  ∧ (train Sample.env (Some "home") None 2016 false s).1 = Ok None
  ∧ attrs (model (self s')) !! "coef_" = Some Sample.weights
  ∧ attrs (model (self s')) !! "intercept_" = Some Sample.bias.
Proof.
  intros s s'.
  destruct (train_fast_path_iff Sample.env s (Some "home") None 2016 false) as [H _].
  destruct H as (Hc & _ & _ & Hitems).
  { split; [reflexivity | split; [by eexists | reflexivity]]. }
  destruct (Hitems [("coef_", VList [VFloat (Dec 25 (-2)); VFloat (Dec (-3) (-1))]);
                    ("intercept_", VList [VFloat Sample.zero])] eq_refl) as [Hr Hm].
  split; [exact Hc |]. split; [exact Hr |].
  subst s'. rewrite Hm. split; reflexivity.
Defined.

(** On the sample installation: with the document present the loader is not
    called; with [ignore_json] set it is. *)
Example train_linear_cached_calls :
  new_calls Sample.with_json
    (outside (train Sample.env (Some "home") None 2016 false
                {| self := Sample.linear; outside := Sample.with_json |}).2)
  = [call_json_load Sample.json_path; call_isfile Sample.json_path].
Proof. vm_compute. reflexivity. Qed.

Example train_linear_ignore_json_calls :
  new_calls Sample.with_json
    (outside (train Sample.env (Some "home") None 2016 true
                {| self := Sample.linear; outside := Sample.with_json |}).2)
  = [call_save "PLEClinear_p5_l1_pdbbind2016_s65536.pickle"; call_predict (ds_train_descs (Sample.split Sample.table));
     call_predict (ds_test_descs (Sample.split Sample.table));
     call_fit linear_model (ds_train_descs (Sample.split Sample.table))
       (ds_train_target (Sample.split Sample.table));
     call_load_pdbbind_desc Sample.csv_path 2016;
     call_isfile Sample.json_path].
Proof. vm_compute. reflexivity. Qed.

(** ** What [gen_json] does *)

Lemma to_json_value_raises (E : Env) (attr : pyval) :
  to_json_value E attr = Raise isinstance_error.
Proof. reflexivity. Qed.

(** [gen_json] never gets past its loop: it raises what [train] raises, or
    else raises in the first round, in the state [train] left. *)
Lemma gen_json_unfold (E : Env) (hd : option string) (pv : Z) (s : state) :
  gen_json E hd pv s =
  match train E hd None 2016 false s with
  | (Ok _, s1) => (Raise (export_error (self s1)), s1)
  | (Raise e, s1) => (Raise e, s1)
  end.
Proof.
  unfold gen_json. unfold bind at 1.
  destruct (train E hd None 2016 false s) as [[r|e] [a w]]; [| done].
  unfold export_error, first_error.
  cbv beta iota delta [bind get_self gets ret raise attributes_of fold_each
                         getattr_model lift].
  simpl.
  destruct (is_SGDRegressor (model a)); [| destruct (is_MLPRegressor (model a))].
  - simpl. by destruct (attrs (model a) !! "coef_").
  - simpl. by destruct (attrs (model a) !! "loss_").
  - done.
Qed.

(** Lines 107-113 on their own: with [home_dir] left at [None] the path
    cannot be built, and nothing is written. *)
Lemma write_json_None (E : Env) (pv : Z) (out : list (string * pyval)) (s : state) :
  write_json E None pv out s = (Raise path_error, s).
Proof. by destruct s. Qed.

(** The state [gen_json] ends in is the one its call of [train] ends in. *)
Lemma gen_json_state (E : Env) (hd : option string) (pv : Z) (s : state) :
  (gen_json E hd pv s).2 = (train E hd None 2016 false s).2.
Proof.
  rewrite gen_json_unfold. by destruct (train E hd None 2016 false s) as [[r|e] s1].
Qed.

Lemma gen_json_result (E : Env) (hd : option string) (pv : Z) (s : state) :
  ∃ e, (gen_json E hd pv s).1 = Raise e.
Proof.
  rewrite gen_json_unfold.
  destruct (train E hd None 2016 false s) as [[r|e] s1]; eauto.
Qed.

(** No call of [json.dump], no new JSON document. *)
Lemma gen_json_no_export (E : Env) (hd : option string) (pv : Z) (s : state) :
  Forall not_json_dump (new_calls (outside s) (outside (gen_json E hd pv s).2))
  ∧ no_new_json (outside s) (outside (gen_json E hd pv s).2).
Proof.
  rewrite gen_json_state.
  destruct (train_keeps E hd None 2016 false s) as [_ [(new & Hc & Hn) Hj]].
  by rewrite (new_calls_app _ _ new).
Qed.

(** ** The claims about [gen_json] *)

Lemma same_settings_model_class (a a' : PLECscore) :
  same_settings a a' →
  is_SGDRegressor (model a') = is_SGDRegressor (model a)
  ∧ is_MLPRegressor (model a') = is_MLPRegressor (model a)
  ∧ is_RandomForestRegressor (model a') = is_RandomForestRegressor (model a).
Proof.
  intros (_ & _ & _ & _ & _ & _ & H).
  unfold is_SGDRegressor, is_MLPRegressor, is_RandomForestRegressor.
  by rewrite H.
Qed.

(** C1: for the linear variant [gen_json] does not produce the document the
    round trip needs.  Once [train] has returned, the test
    [isinstance(attr, np.array)] of the first round raises [TypeError] (or the
    model has no [coef_] and the lookup raises); no JSON document is written
    and [json.dump] is never called. *)
Theorem gen_json_linear_never_exports (E : Env) (hd : option string) (pv : Z) (s : state) :
  is_SGDRegressor (model (self s)) = true →
  (gen_json E hd pv s).1 =
    match train E hd None 2016 false s with
    | (Ok _, s1) =>
        Raise (match attrs (model (self s1)) !! "coef_" with
               | Some _ => isinstance_error
               | None => AttributeError "coef_"
               end)
    | (Raise e, _) => Raise e
    end
  ∧ Forall not_json_dump (new_calls (outside s) (outside (gen_json E hd pv s).2))
  ∧ no_new_json (outside s) (outside (gen_json E hd pv s).2).
Proof.
  intros Hsgd. split; [| apply gen_json_no_export].
  rewrite gen_json_unfold.
  pose proof (train_keeps E hd None 2016 false s) as [Hs _].
  destruct (train E hd None 2016 false s) as [[r|e] s1]; [| done]. simpl in *.
  apply same_settings_model_class in Hs as (Hs & _ & _).
  unfold export_error, first_error. by rewrite Hs, Hsgd.
Qed.

Lemma gen_json_linear_never_exports_witness :
  is_SGDRegressor (model (self {| self := Sample.linear; outside := Sample.with_csv |})) = true
  ∧ (gen_json Sample.env (Some "home") 2016
       {| self := Sample.linear; outside := Sample.with_csv |}).1
    = match train Sample.env (Some "home") None 2016 false
              {| self := Sample.linear; outside := Sample.with_csv |} with
      | (Ok _, s1) =>
          Raise (match attrs (model (self s1)) !! "coef_" with
                 | Some _ => isinstance_error
                 | None => AttributeError "coef_"
                 end)
      | (Raise e, _) => Raise e
      end.
Proof.
  split; [reflexivity |].
  apply (gen_json_linear_never_exports Sample.env (Some "home") 2016
           {| self := Sample.linear; outside := Sample.with_csv |}).
  reflexivity.
Defined.

(** The linear scorer of the sample installation, trained on its
    descriptors: the export raises [TypeError] and leaves no document at the
    path [train] would read it from. *)
Example gen_json_linear_sample :
  let s' := (gen_json Sample.env (Some "home") 2016
               {| self := Sample.linear; outside := Sample.with_csv |}) in
  s'.1 = Raise isinstance_error
  ∧ attrs (model (self s'.2)) !! "coef_" = Some Sample.weights
  ∧ files (outside s'.2) !! Sample.json_path = None.
Proof. vm_compute. repeat split. Qed.

(** C6: on a scorer whose model is a random forest [gen_json] raises: what
    [train] raises if it does, and otherwise [UnboundLocalError] for the
    attribute list no branch has bound.  It writes no JSON document and never
    calls [json.dump]. *)
Theorem gen_json_random_forest_fails (E : Env) (hd : option string) (pv : Z) (s : state) :
  is_RandomForestRegressor (model (self s)) = true →
  (gen_json E hd pv s).1 =
    match (train E hd None 2016 false s).1 with
    | Ok _ => Raise (UnboundLocalError "attributes")
    | Raise e => Raise e
    end
  ∧ Forall not_json_dump (new_calls (outside s) (outside (gen_json E hd pv s).2))
  ∧ no_new_json (outside s) (outside (gen_json E hd pv s).2).
Proof.
  intros Hrf. split; [| apply gen_json_no_export].
  rewrite gen_json_unfold.
  pose proof (train_keeps E hd None 2016 false s) as [Hs _].
  destruct (train E hd None 2016 false s) as [[r|e] s1]; [| done]. simpl in *.
  apply same_settings_model_class in Hs as (Hsgd & Hmlp & Hrf').
  rewrite Hrf in Hrf'. unfold export_error.
  unfold is_SGDRegressor, is_MLPRegressor, is_RandomForestRegressor in *.
  by destruct (est (model (self s1))).
Qed.

Lemma gen_json_random_forest_fails_witness :
  is_RandomForestRegressor (model (self {| self := Sample.rf; outside := Sample.with_csv |}))
    = true
  ∧ (gen_json Sample.env (Some "home") 2016
       {| self := Sample.rf; outside := Sample.with_csv |}).1
    = match (train Sample.env (Some "home") None 2016 false
               {| self := Sample.rf; outside := Sample.with_csv |}).1 with
      | Ok _ => Raise (UnboundLocalError "attributes")
      | Raise e => Raise e
      end.
Proof.
  split; [reflexivity |].
  apply (gen_json_random_forest_fails Sample.env (Some "home") 2016
           {| self := Sample.rf; outside := Sample.with_csv |}).
  reflexivity.
Defined.

Example gen_json_random_forest_sample :
  (gen_json Sample.env (Some "home") 2016
     {| self := Sample.rf; outside := Sample.with_csv |}).1
  = Raise (UnboundLocalError "attributes").
Proof. vm_compute. reflexivity. Qed.

Lemma default_home_nonempty (a : string) :
  (String.length (join a "PLECscore") =? 0)%nat = false.
Proof.
  unfold join. simpl.
  destruct a as [|c a]; [reflexivity |].
  by destruct (endswith_sep (String c a)).
Qed.

(** [train] with [home_dir] left at [None] works in the directory beside
    the module. *)
Lemma train_default_home (E : Env) (sfp : option string) (pv : Z) (ij : bool) (s : state) :
  train E None sfp pv ij s = train E (Some (join (module_dir E) "PLECscore")) sfp pv ij s.
Proof. unfold train. by rewrite default_home_nonempty. Qed.

Lemma export_error_not_path (a : PLECscore) : export_error a ≠ path_error.
Proof.
  unfold export_error, first_error, isinstance_error, path_error.
  destruct (is_SGDRegressor (model a)); [by destruct (attrs (model a) !! "coef_") |].
  destruct (is_MLPRegressor (model a)); [by destruct (attrs (model a) !! "loss_") |].
  done.
Qed.

(** C10, as the specification words it, fails: on an installation where
    [train] succeeds in the directory beside the module, [gen_json] with
    [home_dir] left at [None] raises in its loop over the attributes, not in
    the construction of the path. *)
Lemma gen_json_without_home_other_error :
  ¬ fails_building_path Sample.env 2016
      {| self := Sample.linear; outside := Sample.installed |}.
Proof. unfold fails_building_path. vm_compute. discriminate. Qed.

(** C10, amended: for every variant, [gen_json] with [home_dir] left at
    [None] raises and writes no document.  The inner [train] puts the
    directory beside the module in the place of [None] and runs there, and
    [gen_json] ends in the state that call ends in.  It raises what [train]
    raises, if it does; otherwise it raises in its loop over the attributes
    (or at the attribute list no branch has bound), before lines 107-109
    are reached: the exception is then not the one of the path built from
    [None]. *)
Theorem gen_json_without_home_fails (E : Env) (pv : Z) (s : state) :
  let t := train E (Some (join (module_dir E) "PLECscore")) None 2016 false s in
  (gen_json E None pv s).1
  = match t.1 with
    | Ok _ => Raise (export_error (self t.2))
    | Raise e => Raise e
    end
  ∧ export_error (self t.2) ≠ path_error
  ∧ (gen_json E None pv s).2 = t.2
  ∧ Forall not_json_dump (new_calls (outside s) (outside (gen_json E None pv s).2))
  ∧ no_new_json (outside s) (outside (gen_json E None pv s).2).
Proof.
  intros t. subst t.
  split; [| split; [apply export_error_not_path |
            split; [by rewrite gen_json_state, train_default_home |
                    apply gen_json_no_export]]].
  rewrite gen_json_unfold, train_default_home.
  by destruct (train E _ None 2016 false s) as [[r|e] s1].
Qed.

Example gen_json_without_home_sample :
  (gen_json Sample.env None 2016 {| self := Sample.nn; outside := Sample.with_csv |}).1
  = Raise (IOError "/opt/oddt/scoring/functions/PLECscore/plecscore_descs_p5_l1_s65536.csv").
Proof. vm_compute. reflexivity. Qed.

Example gen_json_without_home_installed :
  (gen_json Sample.env None 2016 {| self := Sample.linear; outside := Sample.installed |}).1
  = Raise isinstance_error.
Proof. vm_compute. reflexivity. Qed.

(** ** The configuration over sequences of operations *)

Section Operations_keep.

Variable E : Env.
Variable R : state → state → Prop.
Hypothesis R_refl : ∀ s, R s s.
Hypothesis R_trans : ∀ s1 s2 s3, R s1 s2 → R s2 s3 → R s1 s3.
Hypothesis R_train : ∀ hd sfp pv ij, keeps R (train E hd sfp pv ij).
Hypothesis R_gen : ∀ dir vs hd, keeps R (gen_training_data E dir vs hd).

Lemma run_operation_keeps (op : operation) (s : state) : R s (run_operation E op s).
Proof.
  destruct op as [dir vs hd | hd sfp pv ij | hd pv]; simpl.
  - apply R_gen.
  - apply R_train.
  - rewrite gen_json_state. apply R_train.
Qed.

Lemma run_operations_keeps (ops : list operation) (s : state) :
  R s (run_operations E ops s).
Proof.
  unfold run_operations. revert s.
  induction ops as [|op ops IH]; intros s; simpl; [apply R_refl |].
  eapply R_trans; [apply run_operation_keeps | apply IH].
Qed.

End Operations_keep.

(** Over any operations the scorer keeps its settings and its estimator,
    [json.dump] is not called and no JSON document appears. *)
Lemma run_operations_training_world (E : Env) (ops : list operation) (s : state) :
  both same_settings (training_world not_json_dump) s (run_operations E ops s).
Proof.
  apply run_operations_keeps.
  - intros s0. split; [apply same_settings_refl | apply training_world_refl].
  - intros s1 s2 s3 [? ?] [? ?].
    split; [by eapply same_settings_trans | by eapply training_world_trans].
  - apply train_keeps.
  - apply gen_training_data_keeps.
Qed.

Example init_with_protein :
  (init (Some "1abc.pdb") (-1) "linear" 5 1 65536 Sample.empty_world).1
  = Ok Sample.bound.
Proof. vm_compute. reflexivity. Qed.

(** C9, as the specification words it, fails: a scorer constructed on a
    protein has lost it after a [train] that fits and saves the model. *)
Lemma train_takes_protein_off :
  ¬ configuration_fixed Sample.env [Train (Some "home") None 2016 false]
      {| self := Sample.bound; outside := Sample.with_csv |}.
Proof. unfold configuration_fixed. vm_compute. discriminate. Qed.

(** C9, amended: whatever operations are run on a scorer, in whatever order
    and whether they return or raise, five of the six fields set at
    construction (n_jobs, version, depth_protein, depth_ligand, size) keep
    the values they had; the protein either keeps its value or has been
    reset to [None]. *)
Theorem configuration_never_mutated (E : Env) (ops : list operation) (s : state) :
  let a := self s in
  let a' := self (run_operations E ops s) in
  n_jobs a' = n_jobs a
  ∧ version a' = version a
  ∧ depth_protein a' = depth_protein a
  ∧ depth_ligand a' = depth_ligand a
  ∧ size a' = size a
  ∧ (protein a' = protein a ∨ protein a' = None).
Proof.
  destruct (run_operations_training_world E ops s) as [(Hp & Hn & Hv & Hdp & Hdl & Hs & _) _].
  simpl. auto 10.
Qed.

Example configuration_sample :
  config (self (run_operations Sample.env
                  [ExportParameters None 2016;
                   GenerateTrainingData "pdbbind" [2016] (Some "home");
                   Train (Some "home") None 2016 true;
                   ExportParameters (Some "home") 2016]
                  {| self := Sample.bound; outside := Sample.empty_world |}))
  = (None, -1, "linear", 5, 1, 65536).
Proof. vm_compute. reflexivity. Qed.

(** ** What [train] returns *)

Lemma returns_bind {S A B} (Q : B → S → Prop) (m : M S A) (k : A → M S B) :
  (∀ a, returns Q (k a)) → returns Q (bind m k).
Proof.
  intros Hk s b s'. unfold bind.
  destruct (m s) as [[a|e] s1]; [apply Hk | discriminate].
Qed.

Lemma save_result_returns E sfp pv : returns (saved_at sfp pv) (save_result E sfp pv).
Proof.
  intros [a w] r s'. unfold saved_at, artifact_path.
  cbv beta iota delta [save_result save bind get_self gets in_world log modify ret
                         update_self raise].
  destruct sfp as [f|]; simpl;
    match goal with |- context [writable_path E ?f] => destruct (writable_path E f) end;
    simpl; intros [= <- <-]; simpl; by rewrite lookup_insert_eq.
Qed.

Lemma fit_and_save_returns E sfp pv : returns (saved_at sfp pv) (fit_and_save E sfp pv).
Proof.
  unfold fit_and_save.
  repeat first [apply save_result_returns | apply returns_bind; intros ?].
Qed.

(** The branch that fits the model returns the path of the saved scorer
    whenever it returns. *)
Lemma train_from_descs_returns E path sfp pv :
  returns (saved_at sfp pv) (train_from_descs E path sfp pv).
Proof.
  unfold train_from_descs. apply returns_bind. intros _. apply fit_and_save_returns.
Qed.

Lemma train_uncached_returns_path (E : Env) (s : state) (hd sfp : option string) (pv : Z)
    (ij : bool) (r : option string) (s' : state) :
  fast_path E s hd pv ij = false →
  train E hd sfp pv ij s = (Ok r, s') →
  saved_at sfp pv r s'.
Proof.
  intros Hf. rewrite train_unfold, Hf. apply train_from_descs_returns.
Qed.

(** C3: not every call of [train] returns the path of a saved scorer.  When
    the branch that loads the JSON document is taken, [train] returns [None]
    (or raises), saves nothing and leaves the files as they were. *)
Theorem train_cached_returns_no_path (E : Env) (s : state) (hd sfp : option string)
    (pv : Z) (ij : bool) :
  fast_path E s hd pv ij = true →
  ((train E hd sfp pv ij s).1 = Ok None ∨ ∃ e, (train E hd sfp pv ij s).1 = Raise e)
  ∧ files (outside (train E hd sfp pv ij s).2) = files (outside s)
  ∧ (∀ f, call_save f ∉ new_calls (outside s) (outside (train E hd sfp pv ij s).2)).
Proof.
  intros Hf. rewrite train_unfold, Hf.
  apply fast_path_spec in Hf as (Hv & _ & _).
  destruct (train_from_json_effect E (json_path_of E (self s) hd pv) pv
              (after_test E s hd pv)) as (Hr & Hc & Hfiles & _).
  unfold after_test in *. rewrite Hv in *. simpl in *.
  split; [exact Hr |]. split; [exact Hfiles |].
  rewrite (new_calls_app _ _ [call_json_load (json_path_of E (self s) hd pv);
                              call_isfile (json_path_of E (self s) hd pv)])
    by (by rewrite Hc).
  intros f Hin. rewrite !elem_of_cons in Hin.
  destruct Hin as [?|[?|Hin]]; [done | done | by apply elem_of_nil in Hin].
Qed.

Lemma train_cached_returns_no_path_witness :
  fast_path Sample.env {| self := Sample.linear; outside := Sample.with_json |}
    (Some "home") 2016 false = true
  ∧ ((train Sample.env (Some "home") (Some "plec.pickle") 2016 false
        {| self := Sample.linear; outside := Sample.with_json |}).1 = Ok None
     ∨ ∃ e, (train Sample.env (Some "home") (Some "plec.pickle") 2016 false
               {| self := Sample.linear; outside := Sample.with_json |}).1 = Raise e).
Proof.
  split; [vm_compute; reflexivity |].
  apply (train_cached_returns_no_path Sample.env
           {| self := Sample.linear; outside := Sample.with_json |}
           (Some "home") (Some "plec.pickle") 2016 false).
  vm_compute. reflexivity.
Defined.

(** The same call on the sample installation: an explicit artifact path is
    given, [None] comes back and no file is at that path. *)
Example train_cached_sample :
  let r := train Sample.env (Some "home") (Some "plec.pickle") 2016 false
             {| self := Sample.linear; outside := Sample.with_json |} in
  r.1 = Ok None
  ∧ files (outside r.2) !! "plec.pickle" = None
  ∧ attrs (model (self r.2)) !! "coef_" = Some Sample.weights.
Proof. vm_compute. repeat split. Qed.

(** ** The claims about [__init__] *)

(** C4, counterexample: for the version [svm] the feature extractor has
    been built by the time the version is rejected. *)
Lemma init_unknown_version_builds_extractor :
  ¬ rejected_before_building None (-1) "svm" 5 1 65536 Sample.empty_world.
Proof.
  intros [_ H].
  destruct (H call_universal_descriptor) as [Hx _].
  - vm_compute. apply list_elem_of_here.
  - apply Hx. by right.
Qed.

(** C4, amended: [__init__] with a version outside [linear], [nn], [rf]
    raises [ValueError] with a message that quotes the version.  By then it
    has bound the fingerprint function and built the descriptor generator,
    and nothing else: no model is constructed and the initialiser of the
    [scorer] base class is not reached. *)
Theorem init_unknown_version_raises (protein : option string) (n_jobs : Z)
    (version : string) (dp dl sz : Z) (w : world) :
  version ≠ "linear" → version ≠ "nn" → version ≠ "rf" →
  init protein n_jobs version dp dl sz w =
  (Raise (ValueError ("The version " ++ dquote ++ version ++ dquote
                        ++ " is not supported by PLECscore")),
   logged call_universal_descriptor (logged call_partial_PLEC w)).
Proof.
  intros H1 H2 H3.
  apply String.eqb_neq in H1. apply String.eqb_neq in H2. apply String.eqb_neq in H3.
  cbv beta iota delta [init make_model bind log modify ret raise].
  by rewrite H1, H2, H3.
Qed.

Lemma init_unknown_version_raises_witness :
  "svm" ≠ "linear" ∧ "svm" ≠ "nn" ∧ "svm" ≠ "rf"
  ∧ init None (-1) "svm" 5 1 65536 Sample.empty_world =
    (Raise (ValueError ("The version " ++ dquote ++ "svm" ++ dquote
                          ++ " is not supported by PLECscore")),
     logged call_universal_descriptor (logged call_partial_PLEC Sample.empty_world)).
Proof.
  split; [by apply (bool_decide_unpack _); vm_compute |].
  split; [by apply (bool_decide_unpack _); vm_compute |].
  split; [by apply (bool_decide_unpack _); vm_compute |].
  apply (init_unknown_version_raises None (-1) "svm" 5 1 65536 Sample.empty_world);
    by apply (bool_decide_unpack _); vm_compute.
Defined.

(** For the three versions of the enumeration the construction succeeds,
    with the title built from version and depths. *)
Lemma init_known_version (protein : option string) (n_jobs : Z) (version : string)
    (dp dl sz : Z) (w : world) :
  version = "linear" ∨ version = "nn" ∨ version = "rf" →
  ∃ a, (init protein n_jobs version dp dl sz w).1 = Ok a
       ∧ config a = (protein, n_jobs, version, dp, dl, sz)
       ∧ score_title a = title_name version dp dl.
Proof. intros [-> | [-> | ->]]; eexists; repeat split. Qed.

(** C7, counterexample: constructed with [n_jobs=4], the forest has
    [n_jobs=-1]. *)
Lemma init_rf_ignores_n_jobs : ¬ hint_sets_forest_jobs 4.
Proof.
  intros H.
  destruct (H _ _ eq_refl) as (p & Hp & Hn).
  simpl in Hp. injection Hp as <-. discriminate Hn.
Qed.

(** C7, amended: whatever [n_jobs] the constructor is given, the random
    forest is built with [n_jobs=-1], all available cores; the value given is
    only recorded in the field [n_jobs] of the scorer. *)
Theorem init_rf_uses_all_cores (protein : option string) (hint : Z) (dp dl sz : Z)
    (w : world) :
  ∃ a p, (init protein hint "rf" dp dl sz w).1 = Ok a
         ∧ est (model a) = RandomForestRegressor p
         ∧ rf_n_jobs p = -1
         ∧ n_jobs a = hint.
Proof. by eexists _, _. Qed.

(** C8: for the version [linear] the constructor builds an [SGDRegressor]
    (online stochastic fit) with [fit_intercept=False], [loss='huber'],
    [penalty='elasticnet'], [n_iter=100], [alpha=1e-4], [epsilon=1e-1] and
    the fixed seed [random_state=0]. *)
Theorem init_linear_hyperparameters (protein : option string) (hint : Z) (dp dl sz : Z)
    (w : world) :
  ∃ a p, (init protein hint "linear" dp dl sz w).1 = Ok a
         ∧ est (model a) = SGDRegressor p
         ∧ fit_intercept p = false
         ∧ loss p = "huber"
         ∧ penalty p = "elasticnet"
         ∧ n_iter p = 100
         ∧ alpha p = Dec 1 (-4)
         ∧ epsilon p = Dec 1 (-1)
         ∧ sgd_random_state p = 0.
Proof. eexists _, _. repeat split. Qed.

(** ** The claim about [load] *)

(** C5: [load] without a file name does not get as far as probing.  It
    reads [version] on the class, which has no such attribute unless the base
    class provides one, and raises [AttributeError]; no file is looked for,
    no scorer is built or trained. *)
Theorem load_without_filename_raises (E : Env) (version : string) (pv : Z) (w : world) :
  dict_get "version" (scorer_class_attrs E) = None →
  load E None version pv w = (Raise (AttributeError "version"), w).
Proof.
  intros H. cbv beta iota delta [load bind class_getattr]. by rewrite H.
Qed.

Lemma load_without_filename_raises_witness :
  dict_get "version" (scorer_class_attrs Sample.env) = None
  ∧ load Sample.env None "linear" 2016 Sample.with_csv
    = (Raise (AttributeError "version"), Sample.with_csv).
Proof.
  split; [reflexivity |].
  apply (load_without_filename_raises Sample.env "linear" 2016 Sample.with_csv).
  reflexivity.
Defined.

(** With an explicit file name [load] deserializes what [train] saved. *)
Example load_saved_sample :
  let trained := train Sample.env (Some "home") (Some "plec.pickle") 2016 false
                   {| self := Sample.rf; outside := Sample.with_csv |} in
  trained.1 = Ok (Some "plec.pickle")
  ∧ (load Sample.env (Some "plec.pickle") "rf" 2016 (outside trained.2)).1
    = Ok (self trained.2).
Proof. vm_compute. split; reflexivity. Qed.

(** ** What the JSON branch loads *)

(** [train] on its JSON branch, on a document that is an object. *)
Lemma train_cached_run (E : Env) (s : state) (hd sfp : option string) (pv : Z)
    (ij : bool) (items : list (string * pyval)) :
  fast_path E s hd pv ij = true →
  files (outside s) !! json_path_of E (self s) hd pv = Some (FJson (VDict items)) →
  train E hd sfp pv ij s =
  (loaded (setattr_items E items (model (self s))).1,
   {| self := set_model (setattr_items E items (model (self s))).2 (self s);
      outside :=
        logged (call_json_load (json_path_of E (self s) hd pv))
          (printed (loading_line (version (self s)) (depth_protein (self s))
                      (depth_ligand (self s)) pv)
             (logged (call_isfile (json_path_of E (self s) hd pv)) (outside s))) |}).
Proof.
  intros Hf Hfile. rewrite train_unfold, Hf.
  apply fast_path_spec in Hf as (Hv & _ & _).
  unfold after_test. rewrite Hv. simpl.
  destruct s as [a w]. simpl in *.
  cbv beta iota delta [train_from_json bind get_self gets in_world print_err modify
                         json_load log dict_items ret raise lift].
  simpl. rewrite Hfile. simpl. rewrite set_from_json_run. simpl.
  rewrite Hv. by destruct (setattr_items E items (model a)) as [[u|e] m].
Qed.

(** X5: when the condition of line 127 holds and the document is an
    object, [train] is the loop of lines 136-142 over its items and nothing
    more: it returns [None] if the loop ends normally and raises what the
    loop raises otherwise; the model is the one the loop leaves and every
    other field of the scorer is as before; one line is printed, two calls
    are made and no file is written. *)
Theorem train_cached_loads (E : Env) (s : state) (hd sfp : option string) (pv : Z)
    (ij : bool) (items : list (string * pyval)) :
  fast_path E s hd pv ij = true →
  files (outside s) !! json_path_of E (self s) hd pv = Some (FJson (VDict items)) →
  train E hd sfp pv ij s =
  (loaded (setattr_items E items (model (self s))).1,
   {| self := set_model (setattr_items E items (model (self s))).2 (self s);
      outside :=
        logged (call_json_load (json_path_of E (self s) hd pv))
          (printed (loading_line (version (self s)) (depth_protein (self s))
                      (depth_ligand (self s)) pv)
             (logged (call_isfile (json_path_of E (self s) hd pv)) (outside s))) |}).
Proof. apply train_cached_run. Qed.

Example from_json_then_tolist :
  from_json_value Sample.env (VList [VFloat (Dec 25 (-2)); VFloat (Dec (-3) (-1))])
  = Ok Sample.weights
  ∧ np_tolist Sample.env Sample.weights
    = Ok (VList [VFloat (Dec 25 (-2)); VFloat (Dec (-3) (-1))]).
Proof. split; reflexivity. Qed.

(** On the sample installation a document can also undo what it has loaded:
    an item named [__dict__] replaces every attribute set before it, and one
    named [__class__] ends the loop with a [TypeError]. *)
Example setattr_items_dict :
  attrs (setattr_items Sample.env
           [("coef_", VList [VFloat (Dec 25 (-2))]); ("__dict__", VDict [])]
           (model Sample.linear)).2
  = ∅.
Proof. vm_compute. reflexivity. Qed.

Example setattr_items_class :
  (setattr_items Sample.env
     [("__class__", VStr "SGDRegressor"); ("coef_", VList [VFloat (Dec 25 (-2))])]
     (model Sample.linear))
  = (Raise (TypeError "__class__ must be set to a class"), model Sample.linear).
Proof. vm_compute. reflexivity. Qed.

(** ** What stays over sequences of operations *)

Lemma files_kept_refl w : files_kept w w.
Proof. by intros p. Qed.

Lemma files_kept_trans w1 w2 w3 : files_kept w1 w2 → files_kept w2 w3 → files_kept w1 w3.
Proof. intros H12 H23 p Hp. by apply H23, H12. Qed.

Lemma files_kept_write p f w : files_kept w (set_files (<[p := f]> (files w)) w).
Proof.
  intros q Hq. simpl. destruct (decide (p = q)) as [->|Hne].
  - rewrite lookup_insert_eq. by eexists.
  - by rewrite lookup_insert_ne.
Qed.

Lemma files_kept_log c w : files_kept w (logged c w).
Proof. by intros p Hp. Qed.

Lemma files_kept_print line w : files_kept w (printed line w).
Proof. by intros p Hp. Qed.

(** The side conditions of the lemmas on [keeps], for [same_settings] and
    [files_kept]. *)
Ltac kept_facts :=
  first [ exact same_settings_refl | exact same_settings_trans
        | exact same_settings_attrs | exact same_settings_datasets
        | exact same_settings_protein
        | exact files_kept_refl | exact files_kept_trans
        | (intros; apply files_kept_write) | (intros; apply files_kept_log)
        | (intros; apply files_kept_print) | by intros ].

Lemma train_files_kept (E : Env) hd sfp pv ij :
  keeps (both same_settings files_kept) (train E hd sfp pv ij).
Proof.
  apply keeps_train with (allowed := λ _, True) (writable := λ _, True); kept_facts.
Qed.

Lemma gen_training_data_files_kept (E : Env) dir vs hd :
  keeps (both same_settings files_kept) (gen_training_data E dir vs hd).
Proof.
  apply keeps_gen_training_data with (allowed := λ _, True) (writable := λ _, True);
    kept_facts.
Qed.

Lemma run_operations_files_kept (E : Env) (ops : list operation) (s : state) :
  both same_settings files_kept s (run_operations E ops s).
Proof.
  apply run_operations_keeps.
  - intros s0. split; [apply same_settings_refl | apply files_kept_refl].
  - intros s1 s2 s3 [? ?] [? ?].
    split; [by eapply same_settings_trans | by eapply files_kept_trans].
  - apply train_files_kept.
  - apply gen_training_data_files_kept.
Qed.

(** X13: no sequence of operations adds a JSON document or calls
    [json.dump].  The document the JSON branch of [train] reads is never
    produced by this class; it has to come from outside. *)
Theorem operations_never_add_json (E : Env) (ops : list operation) (s : state) :
  no_new_json (outside s) (outside (run_operations E ops s))
  ∧ Forall not_json_dump (new_calls (outside s) (outside (run_operations E ops s))).
Proof.
  destruct (run_operations_training_world E ops s) as [_ [(new & Hc & Hn) Hj]].
  split; [exact Hj |]. by rewrite (new_calls_app _ _ new).
Qed.

(** X14: once the condition of line 127 holds for given arguments it holds
    after every sequence of operations: a cached linear scorer stays cached.
    (Operations delete no file and change none of version, depths and size,
    which the path of the document is built from.) *)
Theorem fast_path_stable (E : Env) (ops : list operation) (s : state)
    (hd : option string) (pv : Z) (ij : bool) :
  fast_path E s hd pv ij = true →
  fast_path E (run_operations E ops s) hd pv ij = true.
Proof.
  rewrite !fast_path_spec.
  destruct (run_operations_files_kept E ops s) as [(_ & _ & Hv & Hdp & Hdl & Hsz & _) Hf].
  intros (Hlin & Hfile & Hij).
  unfold json_path_of in *. rewrite Hv, Hdp, Hdl, Hsz.
  split; [exact Hlin |]. split; [by apply Hf | exact Hij].
Qed.

Lemma fast_path_stable_witness :
  fast_path Sample.env {| self := Sample.linear; outside := Sample.with_json |}
    (Some "home") 2016 false = true
  ∧ fast_path Sample.env
      (run_operations Sample.env
         [Train (Some "home") (Some "plec.pickle") 2016 true;
          GenerateTrainingData "pdbbind" [2016] None]
         {| self := Sample.linear; outside := Sample.with_json |})
      (Some "home") 2016 false = true.
Proof.
  split; [vm_compute; reflexivity |].
  apply (fast_path_stable Sample.env
           [Train (Some "home") (Some "plec.pickle") 2016 true;
            GenerateTrainingData "pdbbind" [2016] None]
           {| self := Sample.linear; outside := Sample.with_json |}
           (Some "home") 2016 false).
  vm_compute. reflexivity.
Defined.

(** ** More on [__init__] *)



(** ** More on [train] *)

(** X4: when the JSON branch is not taken and [train] returns, it returns
    the path the scorer was saved under: [sf_pickle] if one was given, else
    the name built from version, depths, benchmark version and size, the
    configuration being the one [train] started with.  The file at that path
    holds the scorer as [train] leaves it. *)
Theorem train_slow_path_saves (E : Env) (s : state) (hd sfp : option string) (pv : Z)
    (ij : bool) (r : option string) (s' : state) :
  fast_path E s hd pv ij = false →
  train E hd sfp pv ij s = (Ok r, s') →
  r = Some (artifact_path (self s) sfp pv)
  ∧ files (outside s') !! artifact_path (self s) sfp pv = Some (FPickle (self s')).
Proof.
  intros Hf Ht.
  destruct (train_uncached_returns_path E s hd sfp pv ij r s' Hf Ht) as [Hr Hfile].
  pose proof (train_keeps E hd sfp pv ij s) as [(_ & _ & Hv & Hdp & Hdl & Hsz & _) _].
  rewrite Ht in Hv, Hdp, Hdl, Hsz. simpl in Hv, Hdp, Hdl, Hsz.
  assert (artifact_path (self s') sfp pv = artifact_path (self s) sfp pv) as Heq.
  { unfold artifact_path. destruct sfp; [done |]. by rewrite Hv, Hdp, Hdl, Hsz. }
  by rewrite <- Heq.
Qed.

Lemma train_slow_path_saves_witness :
  let s := {| self := Sample.rf; outside := Sample.with_csv |} in
  let s' := (train Sample.env (Some "home") None 2016 false s).2 in
  fast_path Sample.env s (Some "home") 2016 false = false
  ∧ train Sample.env (Some "home") None 2016 false s
    = (Ok (Some "PLECrf_p5_l1_pdbbind2016_s65536.pickle"), s')
  ∧ Some "PLECrf_p5_l1_pdbbind2016_s65536.pickle" = Some (artifact_path (self s) None 2016)
  ∧ files (outside s') !! artifact_path (self s) None 2016 = Some (FPickle (self s')).
Proof.
  intros s s'.
  assert (fast_path Sample.env s (Some "home") 2016 false = false) as Hf
    by (vm_compute; reflexivity).
  assert (train Sample.env (Some "home") None 2016 false s
          = (Ok (Some "PLECrf_p5_l1_pdbbind2016_s65536.pickle"), s')) as Ht
    by (vm_compute; reflexivity).
  split; [exact Hf |]. split; [exact Ht |].
  apply (train_slow_path_saves Sample.env s (Some "home") None 2016 false _ _ Hf Ht).
Defined.

(** The JSON branch on the sample installation. *)
Lemma train_cached_loads_witness :
  let s := {| self := Sample.linear; outside := Sample.with_json |} in
  let items := [("coef_", VList [VFloat (Dec 25 (-2)); VFloat (Dec (-3) (-1))]);
                ("intercept_", VList [VFloat Sample.zero])] in
  fast_path Sample.env s (Some "home") 2016 false = true
  ∧ files (outside s) !! json_path_of Sample.env (self s) (Some "home") 2016
    = Some (FJson (VDict items))
  ∧ (train Sample.env (Some "home") None 2016 false s).1 = Ok None
  ∧ attrs (model (self (train Sample.env (Some "home") None 2016 false s).2))
    = {[ "coef_" := Sample.weights; "intercept_" := Sample.bias ]}.
Proof.
  intros s items.
  assert (fast_path Sample.env s (Some "home") 2016 false = true) as Hf
    by (vm_compute; reflexivity).
  assert (files (outside s) !! json_path_of Sample.env (self s) (Some "home") 2016
          = Some (FJson (VDict items))) as Hfile by (vm_compute; reflexivity).
  split; [exact Hf |]. split; [exact Hfile |].
  rewrite (train_cached_loads Sample.env s (Some "home") None 2016 false items Hf Hfile).
  split; vm_compute; reflexivity.
Defined.

(** The loop over a document is the loop over its first items followed, if
    that ends normally, by the loop over the rest. *)
Lemma setattr_items_app (E : Env) (pre rest : list (string * pyval)) (m : model_obj) :
  setattr_items E (pre ++ rest)%list m
  = match (setattr_items E pre m).1 with
    | Ok _ => setattr_items E rest (setattr_items E pre m).2
    | Raise e => setattr_items E pre m
    end.
Proof.
  revert m. induction pre as [|[k v] pre IH]; intros m; simpl; [done |].
  destruct (from_json_value E v) as [v'|e]; simpl; [| done].
  destruct (py_setattr E (est m) (attrs m) k v') as [[u|e] new]; simpl; [| done].
  apply IH.
Qed.

(** X6: a JSON document with an empty list among its values makes the JSON
    branch of [train] raise [IndexError] (the test [v[0]] of line 138) if the
    loop gets as far as that item, and the model is left half loaded: it is
    the one the items before the empty list leave, and the items after it
    are not looked at. *)
Theorem train_cached_empty_list_raises (E : Env) (s : state) (hd sfp : option string)
    (pv : Z) (ij : bool) (pre post : list (string * pyval)) (k : string) :
  fast_path E s hd pv ij = true →
  files (outside s) !! json_path_of E (self s) hd pv
  = Some (FJson (VDict (pre ++ (k, VList []) :: post)%list)) →
  (setattr_items E pre (model (self s))).1 = Ok tt →
  (train E hd sfp pv ij s).1 = Raise IndexError
  ∧ model (self (train E hd sfp pv ij s).2) = (setattr_items E pre (model (self s))).2.
Proof.
  intros Hf Hfile Hpre.
  rewrite (train_cached_run E s hd sfp pv ij _ Hf Hfile). simpl.
  rewrite setattr_items_app, Hpre. simpl. by split.
Qed.

Lemma train_cached_empty_list_raises_witness :
  let doc := [("coef_", VList [VFloat (Dec 25 (-2))]); ("intercept_", VList []);
              ("t_", VFloat (Dec 1 0))] in
  let s := {| self := Sample.linear;
              outside := {| files := {[ Sample.json_path := FJson (VDict doc) ]};
                            stderr := []; calls := [] |} |} in
  fast_path Sample.env s (Some "home") 2016 false = true
  ∧ (train Sample.env (Some "home") None 2016 false s).1 = Raise IndexError
  ∧ attrs (model (self (train Sample.env (Some "home") None 2016 false s).2))
    = {[ "coef_" := VArray (VList [VFloat (Dec 25 (-2))]) ]}.
Proof.
  intros doc s.
  assert (fast_path Sample.env s (Some "home") 2016 false = true) as Hf
    by (vm_compute; reflexivity).
  split; [exact Hf |].
  destruct (train_cached_empty_list_raises Sample.env s (Some "home") None 2016 false
              [("coef_", VList [VFloat (Dec 25 (-2))])]
              [("t_", VFloat (Dec 1 0))] "intercept_" Hf) as [Hr Hm].
  - vm_compute. reflexivity.
  - reflexivity.
  - split; [exact Hr |]. rewrite Hm. vm_compute. reflexivity.
Defined.

(** ** [gen_training_data], alone and before [train] *)

Lemma length_append (a b : string) :
  String.length (a ++ b) = (String.length a + String.length b)%nat.
Proof. induction a as [|c a IH]; simpl; [done | by rewrite IH]. Qed.

Lemma join_length (a b : string) :
  startswith_sep b = false →
  (String.length a + String.length b ≤ String.length (join a b))%nat.
Proof.
  intros Hb. unfold join. rewrite Hb.
  destruct ((String.length a =? 0)%nat || endswith_sep a);
    rewrite !length_append; simpl; lia.
Qed.

Lemma descs_name_relative (dp dl sz : Z) : startswith_sep (descs_name dp dl sz) = false.
Proof. reflexivity. Qed.

(** What [gen_training_data] does: one call, to [_gen_pdbbind_desc]; the
    scorer is not touched. *)
Lemma gen_training_data_effect (E : Env) (dir : string) (vs : list Z)
    (hd : option string) (s : state) :
  gen_training_data E dir vs hd s =
  let path := gen_desc_path_of E (self s) hd in
  let w := logged (call_gen_pdbbind_desc path) (outside s) in
  match pdbbind_table E (descriptor_generator (self s)) dir vs with
  | Ok table =>
      (Ok tt, {| self := self s;
                 outside := set_files (<[path := FCsv table]> (files w)) w |})
  | Raise e => (Raise e, {| self := self s; outside := w |})
  end.
Proof.
  destruct s as [a w]. unfold gen_desc_path_of, gen_home_of.
  cbv beta iota delta [gen_training_data gen_pdbbind_desc bind get_self gets lift ret
                         in_world log modify path_join].
  destruct hd as [h|]; simpl;
    by destruct (pdbbind_table E (descriptor_generator a) dir vs).
Qed.

(** X7: [gen_training_data] makes exactly one call, handing
    [_gen_pdbbind_desc] the descriptor file name under its home directory.
    That path is the one [train] hands to [_load_pdbbind_desc] for the same
    [home_dir] exactly when [home_dir] is not the empty string:
    [gen_training_data] replaces only [None] by the directory beside the
    module, [train] replaces the empty string as well. *)
Theorem descriptor_paths_agree_iff (E : Env) (dir : string) (vs : list Z)
    (hd : option string) (s : state) :
  new_calls (outside s) (outside (gen_training_data E dir vs hd s).2)
  = [call_gen_pdbbind_desc (gen_desc_path_of E (self s) hd)]
  ∧ (gen_desc_path_of E (self s) hd = desc_path_of E (self s) hd
     ↔ hd ≠ Some EmptyString).
Proof.
  split.
  - rewrite gen_training_data_effect. simpl.
    destruct (pdbbind_table E (descriptor_generator (self s)) dir vs);
      by apply new_calls_app.
  - unfold gen_desc_path_of, desc_path_of, gen_home_of, home_of.
    destruct hd as [[|c h]|]; simpl.
    + split; [| done]. intros Heq. exfalso.
      pose proof (join_length (join (module_dir E) "PLECscore")
                    (descs_name (depth_protein (self s)) (depth_ligand (self s))
                       (size (self s))) (descs_name_relative _ _ _)) as Hlen.
      rewrite <- Heq in Hlen.
      pose proof (default_home_nonempty (module_dir E)) as Hne.
      apply Nat.eqb_neq in Hne.
      unfold join at 2 in Hlen. rewrite descs_name_relative in Hlen. simpl in Hlen.
      lia.
    + split; [discriminate | done].
    + split; [discriminate | done].
Qed.

Lemma desc_paths_agree (E : Env) (a : PLECscore) (hd : option string) :
  hd ≠ Some EmptyString → gen_desc_path_of E a hd = desc_path_of E a hd.
Proof.
  unfold gen_desc_path_of, desc_path_of, gen_home_of, home_of.
  by destruct hd as [[|c h]|].
Qed.

(** X8: after a [gen_training_data] that returned, for a [home_dir] other
    than the empty string, the descriptor table is the file at the path
    [train] will load from, and the scorer is as it was. *)
Theorem gen_training_data_then_train_path (E : Env) (dir : string) (vs : list Z)
    (hd : option string) (s s1 : state) :
  hd ≠ Some EmptyString →
  gen_training_data E dir vs hd s = (Ok tt, s1) →
  self s1 = self s
  ∧ ∃ table, pdbbind_table E (descriptor_generator (self s)) dir vs = Ok table
             ∧ files (outside s1) !! desc_path_of E (self s1) hd = Some (FCsv table).
Proof.
  intros Hhd. rewrite gen_training_data_effect. simpl.
  rewrite (desc_paths_agree E (self s) hd Hhd).
  destruct (pdbbind_table E (descriptor_generator (self s)) dir vs) as [table|e];
    [| discriminate].
  intros [= <-]. simpl. split; [done |]. exists table. split; [done |].
  apply lookup_insert_eq.
Qed.

Lemma gen_training_data_then_train_path_witness :
  let s := {| self := Sample.nn; outside := Sample.empty_world |} in
  let s1 := (gen_training_data Sample.env "pdbbind" [2016] (Some "home") s).2 in
  Some "home" ≠ Some EmptyString
  ∧ gen_training_data Sample.env "pdbbind" [2016] (Some "home") s = (Ok tt, s1)
  ∧ self s1 = self s
  ∧ ∃ table, pdbbind_table Sample.env (descriptor_generator (self s)) "pdbbind" [2016]
             = Ok table
             ∧ files (outside s1) !! desc_path_of Sample.env (self s1) (Some "home")
               = Some (FCsv table).
Proof.
  intros s s1.
  assert (Some "home" ≠ Some EmptyString) as Hhd by discriminate.
  assert (gen_training_data Sample.env "pdbbind" [2016] (Some "home") s = (Ok tt, s1))
    as Hg by (vm_compute; reflexivity).
  split; [exact Hhd |]. split; [exact Hg |].
  apply (gen_training_data_then_train_path Sample.env "pdbbind" [2016] (Some "home")
           s s1 Hhd Hg).
Defined.

(** With the empty string the two methods part ways: the table written by
    [gen_training_data] is not where [train] looks for it. *)
Example gen_training_data_empty_home_sample :
  let s := {| self := Sample.nn; outside := Sample.empty_world |} in
  let s1 := (gen_training_data Sample.env "pdbbind" [2016] (Some EmptyString) s).2 in
  files (outside s1) !! "plecscore_descs_p5_l1_s65536.csv" = Some (FCsv Sample.table)
  ∧ (train Sample.env (Some EmptyString) None 2016 false s1).1
    = Raise (IOError "/opt/oddt/scoring/functions/PLECscore/plecscore_descs_p5_l1_s65536.csv").
Proof. vm_compute. split; reflexivity. Qed.

(** ** More on [gen_json] *)

(** X9: [gen_json] returns for no scorer and no arguments.  It raises what
    its call of [train] raises, or else raises in its own loop, and leaves
    the scorer and the world as that call of [train] left them. *)
Theorem gen_json_never_returns (E : Env) (hd : option string) (pv : Z) (s : state) :
  (∀ p, (gen_json E hd pv s).1 ≠ Ok p)
  ∧ (gen_json E hd pv s).2 = (train E hd None 2016 false s).2
  ∧ (∀ e, (train E hd None 2016 false s).1 = Raise e → (gen_json E hd pv s).1 = Raise e).
Proof.
  rewrite gen_json_unfold.
  destruct (train E hd None 2016 false s) as [[r|e] s1]; simpl.
  - split; [done |]. split; [done |]. intros e [=].
  - split; [done |]. split; [done |]. by intros e' [= <-].
Qed.

(** X10: on a scorer whose model is the neural network, once [train] has
    returned, [gen_json] raises [TypeError] from [isinstance(attr, np.array)]
    on the first attribute, [loss_], or [AttributeError] if the model has no
    [loss_]. *)
Theorem gen_json_neural_net_fails (E : Env) (hd : option string) (pv : Z) (s : state) :
  is_MLPRegressor (model (self s)) = true →
  (gen_json E hd pv s).1 =
    match train E hd None 2016 false s with
    | (Ok _, s1) =>
        Raise (match attrs (model (self s1)) !! "loss_" with
               | Some _ => isinstance_error
               | None => AttributeError "loss_"
               end)
    | (Raise e, _) => Raise e
    end.
Proof.
  intros Hmlp. rewrite gen_json_unfold.
  pose proof (train_keeps E hd None 2016 false s) as [Hs _].
  destruct (train E hd None 2016 false s) as [[r|e] s1]; [| done]. simpl in *.
  apply same_settings_model_class in Hs as (Hsgd & Hmlp' & _).
  rewrite Hmlp in Hmlp'. unfold export_error, first_error. rewrite Hmlp'.
  unfold is_SGDRegressor, is_MLPRegressor in *.
  by destruct (est (model (self s1))).
Qed.

Lemma gen_json_neural_net_fails_witness :
  is_MLPRegressor (model (self {| self := Sample.nn; outside := Sample.with_csv |})) = true
  ∧ (gen_json Sample.env (Some "home") 2016
       {| self := Sample.nn; outside := Sample.with_csv |}).1
    = match train Sample.env (Some "home") None 2016 false
              {| self := Sample.nn; outside := Sample.with_csv |} with
      | (Ok _, s1) =>
          Raise (match attrs (model (self s1)) !! "loss_" with
                 | Some _ => isinstance_error
                 | None => AttributeError "loss_"
                 end)
      | (Raise e, _) => Raise e
      end.
Proof.
  split; [reflexivity |].
  apply (gen_json_neural_net_fails Sample.env (Some "home") 2016
           {| self := Sample.nn; outside := Sample.with_csv |}).
  reflexivity.
Defined.

Example gen_json_neural_net_sample :
  (gen_json Sample.env (Some "home") 2016
     {| self := Sample.nn; outside := Sample.with_csv |}).1
  = Raise isinstance_error.
Proof. vm_compute. reflexivity. Qed.

(** X11: the [pdbbind_version] given to [gen_json] has no effect on what
    it returns or does.  The inner call is [self.train(home_dir=home_dir)],
    which works with version 2016 whatever version was asked for, and the
    lines that use the argument are never reached. *)
Theorem gen_json_ignores_pdbbind_version (E : Env) (hd : option string) (pv pv' : Z)
    (s : state) :
  gen_json E hd pv s = gen_json E hd pv' s.
Proof. by rewrite !gen_json_unfold. Qed.

Example gen_json_2007_sample :
  new_calls Sample.with_csv
    (outside (gen_json Sample.env (Some "home") 2007
                {| self := Sample.rf; outside := Sample.with_csv |}).2)
  = [call_save "PLECrf_p5_l1_pdbbind2016_s65536.pickle"; call_predict (ds_train_descs (Sample.split Sample.table));
     call_predict (ds_test_descs (Sample.split Sample.table));
     call_fit rf_model (toarray (ds_train_descs (Sample.split Sample.table)))
       (ds_train_target (Sample.split Sample.table));
     call_load_pdbbind_desc Sample.csv_path 2016].
Proof. vm_compute. reflexivity. Qed.

(** ** More on [load] *)

(** With a file name, [load] neither probes nor trains, and [version]
    and [pdbbind_version] play no part: the only call is to [scorer.load],
    no file changes, and the result is the scorer pickled in that file, or
    an error if there is none. *)
Theorem load_with_filename (E : Env) (f : string) (version : string) (pv : Z) (w : world) :
  load E (Some f) version pv w =
  (match files w !! f with
   | Some (FPickle a) => Ok a
   | Some _ => Raise (ValueError "not a pickled scorer")
   | None => Raise (IOError f)
   end,
   logged (call_scorer_load (Some f)) w).
Proof.
  cbv beta iota delta [load scorer_load bind ret raise log modify gets]. simpl.
  destruct (files w !! f) as [[]|]; reflexivity.
Qed.

(** X12: what [train] returns on the branch that fits is a file name [load]
    accepts: loading it gives back the scorer as [train] left it, whatever
    version [load] is asked for. *)
Theorem train_then_load (E : Env) (s : state) (hd sfp : option string) (pv : Z)
    (ij : bool) (p : string) (s' : state) (version : string) (pv' : Z) :
  fast_path E s hd pv ij = false →
  train E hd sfp pv ij s = (Ok (Some p), s') →
  (load E (Some p) version pv' (outside s')).1 = Ok (self s').
Proof.
  intros Hf Ht.
  destruct (train_uncached_returns_path E s hd sfp pv ij (Some p) s' Hf Ht) as [Hr Hfile].
  injection Hr as ->.
  cbv beta iota delta [load scorer_load bind ret raise log modify gets]. simpl.
  by rewrite Hfile.
Qed.

Lemma train_then_load_witness :
  let s := {| self := Sample.linear; outside := Sample.with_json |} in
  let s' := (train Sample.env (Some "home") (Some "plec.pickle") 2016 true s).2 in
  fast_path Sample.env s (Some "home") 2016 true = false
  ∧ train Sample.env (Some "home") (Some "plec.pickle") 2016 true s
    = (Ok (Some "plec.pickle"), s')
  ∧ (load Sample.env (Some "plec.pickle") "rf" 2007 (outside s')).1 = Ok (self s').
Proof.
  intros s s'.
  assert (fast_path Sample.env s (Some "home") 2016 true = false) as Hf
    by (vm_compute; reflexivity).
  assert (train Sample.env (Some "home") (Some "plec.pickle") 2016 true s
          = (Ok (Some "plec.pickle"), s')) as Ht by (vm_compute; reflexivity).
  split; [exact Hf |]. split; [exact Ht |].
  apply (train_then_load Sample.env s (Some "home") (Some "plec.pickle") 2016 true
           "plec.pickle" s' "rf" 2007 Hf Ht).
Defined.

(** ** The matrix the model is fit on *)

(** The branch that fits, when the descriptor table is there and splits:
    the datasets are on the scorer, three things have happened in the world
    (the loader called, the line printed, [fit] called), and what is left is
    the outcome of the fit, the evaluation and the saving. *)
Lemma train_from_descs_fit (E : Env) (path : string) (sfp : option string) (pv : Z)
    (s : state) (table : pyval) (d : datasets) :
  files (outside s) !! path = Some (FCsv table) →
  pdbbind_split E table pv = Ok d →
  train_from_descs E path sfp pv s =
  (fit_outcome E (fit_matrix (self s) (ds_train_descs d)) (ds_train_target d) ;;;
   evaluate_and_save E sfp pv)
    {| self := set_datasets d (self s);
       outside :=
         logged (call_fit (est (model (self s)))
                   (fit_matrix (self s) (ds_train_descs d)) (ds_train_target d))
           (printed (training_line (version (self s)) (depth_protein (self s))
                       (depth_ligand (self s)) pv)
              (logged (call_load_pdbbind_desc path pv) (outside s))) |}.
Proof.
  intros Hfile Hsplit. destruct s as [a w]. simpl in *.
  cbv beta iota delta [train_from_descs load_pdbbind_desc read_pdbbind_desc fit_and_save
                         evaluate_and_save fit fit_outcome getattr_opt update_self bind
                         get_self gets in_world print_err log modify lift ret raise].
  simpl. rewrite Hfile. simpl. rewrite Hsplit. simpl.
  unfold fit_matrix. by destruct (String.eqb (version a) "rf").
Qed.

(** The side conditions of the lemmas on [keeps], for [same_settings] and
    [training_world]. *)
Ltac settings_facts :=
  first
  [ exact same_settings_refl | exact same_settings_trans
  | exact same_settings_attrs | exact same_settings_datasets
  | exact same_settings_protein
  | exact (training_world_refl _) | exact (training_world_trans _)
  | exact (training_world_log _) | exact (training_world_print _)
  | exact (training_world_write _)
  | (intros c Hc; by destruct c)
  | by intros ].

Lemma fit_rest_keeps (E : Env) X y sfp pv :
  keeps (both same_settings (training_world not_json_load))
    (fit_outcome E X y ;;; evaluate_and_save E sfp pv).
Proof.
  apply keeps_bind.
  - intros ? ? ? [? ?] [? ?].
    split; [by eapply same_settings_trans | by eapply training_world_trans].
  - apply keeps_fit_outcome; settings_facts.
  - intros _.
    apply keeps_evaluate_and_save with (allowed := not_json_load) (writable := dataset_file);
      settings_facts.
Qed.

(** X15: on the branch that fits, with the descriptor table in place, the
    call that follows the loader is [fit], on the training target and on
    the training matrix: densified for the random forest, as the loader
    left it for the other two versions. *)
Theorem train_fits_dense_for_forest (E : Env) (s : state) (hd sfp : option string)
    (pv : Z) (ij : bool) (table : pyval) (d : datasets) :
  fast_path E s hd pv ij = false →
  files (outside s) !! desc_path_of E (self s) hd = Some (FCsv table) →
  pdbbind_split E table pv = Ok d →
  ∃ later,
    new_calls (outside s) (outside (train E hd sfp pv ij s).2)
    = (later
       ++ call_fit (est (model (self s)))
            (if String.eqb (version (self s)) "rf"
             then toarray (ds_train_descs d) else ds_train_descs d)
            (ds_train_target d)
       :: call_load_pdbbind_desc (desc_path_of E (self s) hd) pv
       :: if String.eqb (version (self s)) "linear"
          then [call_isfile (json_path_of E (self s) hd pv)] else [])%list.
Proof.
  intros Hf Hfile Hsplit. rewrite train_unfold, Hf.
  assert (files (outside (after_test E s hd pv)) !! desc_path_of E (self s) hd
          = Some (FCsv table)) as Hfile'.
  { unfold after_test. by destruct (String.eqb (version (self s)) "linear"). }
  rewrite (train_from_descs_fit E _ sfp pv _ table d Hfile' Hsplit).
  match goal with
  | |- context [?m ?s0] =>
      match type of s0 with
      | state =>
          match m with
          | bind _ _ => destruct (fit_rest_keeps E
                          (fit_matrix (self (after_test E s hd pv)) (ds_train_descs d))
                          (ds_train_target d) sfp pv s0) as [_ [(new & Hc & _) _]]
          end
      end
  end.
  assert (self (after_test E s hd pv) = self s) as Hself.
  { unfold after_test. by destruct (String.eqb (version (self s)) "linear"). }
  rewrite Hself in *. simpl in Hc.
  exists new. apply new_calls_app. rewrite Hc. unfold fit_matrix, after_test.
  rewrite <- !app_assoc. simpl.
  by destruct (String.eqb (version (self s)) "linear").
Qed.

Lemma train_fits_dense_for_forest_witness :
  let s := {| self := Sample.rf; outside := Sample.with_csv |} in
  fast_path Sample.env s (Some "home") 2016 false = false
  ∧ files (outside s) !! desc_path_of Sample.env (self s) (Some "home")
    = Some (FCsv Sample.table)
  ∧ pdbbind_split Sample.env Sample.table 2016 = Ok (Sample.split Sample.table)
  ∧ ∃ later,
      new_calls (outside s) (outside (train Sample.env (Some "home") None 2016 false s).2)
      = (later
         ++ call_fit (est (model (self s)))
              (if String.eqb (version (self s)) "rf"
               then toarray (ds_train_descs (Sample.split Sample.table))
               else ds_train_descs (Sample.split Sample.table))
              (ds_train_target (Sample.split Sample.table))
         :: call_load_pdbbind_desc (desc_path_of Sample.env (self s) (Some "home")) 2016
         :: if String.eqb (version (self s)) "linear"
            then [call_isfile (json_path_of Sample.env (self s) (Some "home") 2016)]
            else [])%list.
Proof.
  intros s.
  assert (fast_path Sample.env s (Some "home") 2016 false = false) as Hf
    by (vm_compute; reflexivity).
  assert (files (outside s) !! desc_path_of Sample.env (self s) (Some "home")
          = Some (FCsv Sample.table)) as Hfile by (vm_compute; reflexivity).
  assert (pdbbind_split Sample.env Sample.table 2016 = Ok (Sample.split Sample.table))
    as Hsplit by reflexivity.
  split; [exact Hf |]. split; [exact Hfile |]. split; [exact Hsplit |].
  apply (train_fits_dense_for_forest Sample.env s (Some "home") None 2016 false
           Sample.table (Sample.split Sample.table) Hf Hfile Hsplit).
Defined.

(** ** [train] without its descriptors *)

(** X16: when the JSON branch is not taken and there is no file at the
    descriptor path, [train] raises the loader's file-not-found error for
    that path.  The scorer is untouched, nothing is fit or saved, no file
    changes; the only calls are the probe for the JSON document (linear
    version only) and the loader. *)
Theorem train_missing_descriptors (E : Env) (s : state) (hd sfp : option string) (pv : Z)
    (ij : bool) :
  fast_path E s hd pv ij = false →
  files (outside s) !! desc_path_of E (self s) hd = None →
  (train E hd sfp pv ij s).1 = Raise (IOError (desc_path_of E (self s) hd))
  ∧ self (train E hd sfp pv ij s).2 = self s
  ∧ files (outside (train E hd sfp pv ij s).2) = files (outside s)
  ∧ new_calls (outside s) (outside (train E hd sfp pv ij s).2)
    = (call_load_pdbbind_desc (desc_path_of E (self s) hd) pv
       :: if String.eqb (version (self s)) "linear"
          then [call_isfile (json_path_of E (self s) hd pv)] else []).
Proof.
  intros Hf Hfile. rewrite train_unfold, Hf.
  unfold after_test. destruct s as [a w]. simpl in *.
  destruct (String.eqb (version a) "linear");
    cbv beta iota delta [train_from_descs load_pdbbind_desc read_pdbbind_desc bind
                           in_world log modify gets raise];
    simpl; rewrite Hfile; simpl;
    (split; [done |]); (split; [done |]); (split; [done |]);
    by apply new_calls_app.
Qed.

Lemma train_missing_descriptors_witness :
  let s := {| self := Sample.linear; outside := Sample.empty_world |} in
  fast_path Sample.env s None 2016 false = false
  ∧ files (outside s) !! desc_path_of Sample.env (self s) None = None
  ∧ (train Sample.env None None 2016 false s).1
    = Raise (IOError (desc_path_of Sample.env (self s) None)).
Proof.
  intros s.
  assert (fast_path Sample.env s None 2016 false = false) as Hf
    by (vm_compute; reflexivity).
  assert (files (outside s) !! desc_path_of Sample.env (self s) None = None) as Hfile
    by (vm_compute; reflexivity).
  split; [exact Hf |]. split; [exact Hfile |].
  apply (train_missing_descriptors Sample.env s None None 2016 false Hf Hfile).
Defined.
